(** * The activity timeline of the research-agent chat client

    A shallow embedding of [frontend/src/App.tsx]: the [onUpdateEvent]
    handler that turns a raw stream event into a timeline entry, the effect
    that archives the finished timeline under the id of the last message, and
    [handleSubmit], which resets the live state and dispatches a new turn.

    The file has three layers.
    - [JS]: the fragment of JavaScript's dynamic semantics the handler relies
      on (truthiness, property access, [||], [?.], [ToString], [Array.join],
      [String.trim], ...), over JSON values, with [TypeError] as a result.
    - [App]: the component's state and its three handlers, with the arrays
      held in React state living in a store, so that copies and aliases are
      told apart.
    - The properties of the handlers. *)

From Stdlib Require Import String Ascii ZArith List DecimalString.
From stdpp Require Import gmap list.

Local Open Scope Z_scope.
Set Warnings "-register-all".

(** ** Results of evaluating JavaScript code

    The only exception the code of [App.tsx] can raise on JSON data is a
    [TypeError] (reading a property of [null]/[undefined], calling something
    that is not a function, converting an object without a usable [toString]
    method to a string). *)

Inductive Result (A : Type) : Type :=
| Ok (a : A)
| TypeError.
Arguments Ok {A} a.
Arguments TypeError {A}.

#[global] Instance Result_ret : MRet Result := fun _ a => Ok a.
#[global] Instance Result_bind : MBind Result := fun _ _ f m =>
  match m with
  | Ok a => f a
  | TypeError => TypeError
  end.

#[global] Instance Result_fmap : FMap Result := fun _ _ f m =>
  match m with
  | Ok a => Ok (f a)
  | TypeError => TypeError
  end.

Definition isOk {A} (r : Result A) : bool :=
  match r with Ok _ => true | TypeError => false end.

Module JS.

(** *** Strings

    A JavaScript string is a sequence of UTF-16 code units; [length],
    [substring] and [trim] count and cut code units. A code unit is a number
    below 65536. *)

Abbreviation JSString := (list N) (only parsing).

(** The string written by an ASCII literal. *)
Definition js (s : string) : JSString :=
  map N_of_ascii (list_ascii_of_string s).

(** The emoji of the titles, as the code units of their UTF-16 encoding. *)
Definition shield : JSString := [0xD83D; 0xDEE1; 0xFE0F]%N.        (* U+1F6E1 U+FE0F *)
Definition siren : JSString := [0xD83D; 0xDEA8]%N.                 (* U+1F6A8 *)
Definition globe : JSString := [0xD83C; 0xDF10]%N.                 (* U+1F310 *)
Definition books : JSString := [0xD83D; 0xDCDA]%N.                 (* U+1F4DA *)
Definition speech : JSString := [0xD83D; 0xDCAC]%N.                (* U+1F4AC *)
Definition magnifier : JSString := [0xD83D; 0xDD0D]%N.             (* U+1F50D *)
Definition checkMark : JSString := [0x2705]%N.                     (* U+2705 *)
Definition crossMark : JSString := [0x274C]%N.                     (* U+274C *)
Definition newline : JSString := [0x0A]%N.
Definition quote : JSString := [0x22]%N.

Definition eqb (s t : JSString) : bool := bool_decide (s = t).

(** [s.substring(0, n)] *)
Definition substring0 (n : nat) (s : JSString) : JSString := take n s.

(** White space and line terminators, the code units [trim] strips. *)
Definition isWhiteSpace (c : N) : bool :=
  (  (c =? 0x09) || (c =? 0x0A) || (c =? 0x0B) || (c =? 0x0C) || (c =? 0x0D)
  || (c =? 0x20) || (c =? 0xA0) || (c =? 0x1680)
  || ((0x2000 <=? c) && (c <=? 0x200A))
  || (c =? 0x2028) || (c =? 0x2029) || (c =? 0x202F) || (c =? 0x205F)
  || (c =? 0x3000) || (c =? 0xFEFF))%N.

Fixpoint trimStart (s : JSString) : JSString :=
  match s with
  | c :: rest => if isWhiteSpace c then trimStart rest else s
  | [] => []
  end.

Definition trimEnd (s : JSString) : JSString := rev (trimStart (rev s)).

(** [s.trim()] *)
Definition trim (s : JSString) : JSString := trimEnd (trimStart s).

(** *** Values

    The events are parsed JSON: [null], booleans, numbers, strings, arrays
    and objects; [undefined] is what reading a missing property gives.
    Numbers are the integers, which is what the counters and lengths of this
    program are (and what prints in plain decimal notation). An object is the
    list of its own properties; reading a property finds its first binding. *)

Inductive JSValue : Type :=
| JUndefined
| JNull
| JBool (b : bool)
| JNumber (n : Z)
| JString (s : JSString)
| JArray (elems : list JSValue)
| JObject (props : list (JSString * JSValue)).

(** [Number::toString] of an integer. *)
Definition numberToString (n : Z) : JSString :=
  js (NilZero.string_of_int (Z.to_int n)).

(** [ToBoolean] *)
Definition truthy (v : JSValue) : bool :=
  match v with
  | JUndefined | JNull => false
  | JBool b => b
  | JNumber n => negb (n =? 0)
  | JString s => negb (eqb s [])
  | JArray _ | JObject _ => true
  end.

Definition nullish (v : JSValue) : bool :=
  match v with
  | JUndefined | JNull => true
  | _ => false
  end.

(** [a || b] *)
Definition or (a b : JSValue) : JSValue := if truthy a then a else b.

(** The own property [k] of an object. *)
Fixpoint ownProperty (k : JSString) (props : list (JSString * JSValue)) : option JSValue :=
  match props with
  | [] => None
  | (k', v) :: rest => if eqb k k' then Some v else ownProperty k rest
  end.

(** [v.k] for a property name [k] that no prototype defines and that is
    neither [length] nor an array index: the named fields of the payloads.
    On [null] and [undefined] the read raises; on an object it is the own
    property or [undefined]; a boolean, a number, a string or an array has no
    such property. *)
Definition field (v : JSValue) (k : string) : Result JSValue :=
  match v with
  | JUndefined | JNull => TypeError
  | JObject props => Ok (default JUndefined (ownProperty (js k) props))
  | _ => Ok JUndefined
  end.

(** [v?.k], for the same names. *)
Definition optField (v : JSValue) (k : string) : JSValue :=
  match v with
  | JObject props => default JUndefined (ownProperty (js k) props)
  | _ => JUndefined
  end.

(** [v.length], for [v] not [null] or [undefined]. *)
Definition lengthOf (v : JSValue) : JSValue :=
  match v with
  | JString s => JNumber (Z.of_nat (length s))
  | JArray xs => JNumber (Z.of_nat (length xs))
  | JObject props => default JUndefined (ownProperty (js "length") props)
  | _ => JUndefined
  end.

(** [v?.[0]] *)
Definition optIndex0 (v : JSValue) : JSValue :=
  match v with
  | JString (c :: _) => JString [c]
  | JArray (x :: _) => x
  | JObject props => default JUndefined (ownProperty (js "0") props)
  | _ => JUndefined
  end.

(** [Array.isArray(v)] *)
Definition isArray (v : JSValue) : bool :=
  match v with
  | JArray _ => true
  | _ => false
  end.

(** [Array.prototype.join], over the conversion [str] of an element:
    [null] and [undefined] elements print as the empty string. *)
Section Join.
Variable str : JSValue -> Result JSString.
Variable sep : JSString.

Definition elemToString (v : JSValue) : Result JSString :=
  if nullish v then Ok [] else str v.

Fixpoint joinWith (xs : list JSValue) : Result JSString :=
  match xs with
  | [] => Ok []
  | [x] => elemToString x
  | x :: rest =>
      s ← elemToString x;
      r ← joinWith rest;
      Ok (s ++ sep ++ r)
  end.
End Join.

(** [ToString]. An array prints as its elements joined with a comma. An
    object prints through [Object.prototype.toString], unless an own
    property named [toString] hides that method: a JSON value is not
    callable, and [valueOf] gives back the object, so the conversion raises. *)
Fixpoint toString (v : JSValue) : Result JSString :=
  match v with
  | JUndefined => Ok (js "undefined")
  | JNull => Ok (js "null")
  | JBool b => Ok (js (if b then "true" else "false"))
  | JNumber n => Ok (numberToString n)
  | JString s => Ok s
  | JArray xs => joinWith toString (js ",") xs
  | JObject props =>
      match ownProperty (js "toString") props with
      | Some _ => TypeError
      | None => Ok (js "[object Object]")
      end
  end.

(** [v.join(sep)] for [v] not [null] or [undefined]: only an array has the
    method. *)
Definition join (v : JSValue) (sep : JSString) : Result JSString :=
  match v with
  | JArray xs => joinWith toString sep xs
  | _ => TypeError
  end.

End JS.


(** * The component *)

Module App.
Import JS.

(** An entry of the activity timeline ([ProcessedEvent] of the
    [ActivityTimeline] component): a title and the text shown under it. *)
Record ProcessedEvent : Type := {
  title : JSString;
  data : JSValue
}.

(** ** Classification of an update event

    Lines 31 to 140 of [onUpdateEvent]: the chain of conditionals that
    computes [processedEvent] from the event, and in its last two branches
    sets [hasFinalizeEventOccurredRef.current]. The result is the entry, if
    any, and whether the reference was set; [TypeError] when the evaluation
    raises. *)

Definition entry (t : JSString) (d : JSString) : Result (option ProcessedEvent * bool) :=
  Ok (Some {| title := t; data := JString d |}, false).

Definition finalizeEntry (t : JSString) (d : JSString) : Result (option ProcessedEvent * bool) :=
  Ok (Some {| title := t; data := JString d |}, true).

Definition input_guardrail_branch (input_guardrail : JSValue) : Result (option ProcessedEvent * bool) :=
  let isSafe := optField input_guardrail "is_safe_input" in
  let violations := or (optField input_guardrail "guardrail_violations") (JArray []) in
  let originalInput := or (optField input_guardrail "original_input") (JString []) in
  if truthy isSafe then
    match originalInput with
    | JString s =>
        entry (shield ++ js " Input Security Check")
              (js "Input validated successfully. Safe to proceed with: " ++ quote
                 ++ substring0 50 s
                 ++ (if (50 <? length s)%nat then js "..." else [])
                 ++ quote)
    | _ => TypeError   (* originalInput.substring is not a function *)
    end
  else
    joined ← join violations (js ", ");
    len ← toString (lengthOf originalInput);
    entry (siren ++ js " Security Violation Detected")
          (js "Input blocked due to: " ++ joined
             ++ js ". Original input length: " ++ len ++ js " characters.").

(** [payload?.search_query?.join(", ") || ""] *)
Definition search_query_text (payload : JSValue) : Result JSValue :=
  let search_query := optField payload "search_query" in
  joined ← (if nullish search_query then Ok JUndefined
            else JString <$> join search_query (js ", "));
  Ok (or joined (JString [])).

Definition generate_query_branch (t : string) (payload : JSValue) : Result (option ProcessedEvent * bool) :=
  d ← search_query_text payload;
  Ok (Some {| title := js t; data := d |}, false).

(** [sources.map((s) => s.label)] *)
Definition mapLabel (sources : JSValue) : Result (list JSValue) :=
  match sources with
  | JArray xs => mapM (fun s => field s "label") xs
  | _ => TypeError   (* sources.map is not a function *)
  end.

(** [SameValueZero], the equality of [Set]. Two objects or arrays are the
    same only when they are one object; the labels of two sources are parts
    of different elements of the parsed array, so never one object. *)
Definition sameValueZero (a b : JSValue) : bool :=
  match a, b with
  | JUndefined, JUndefined => true
  | JNull, JNull => true
  | JBool x, JBool y => Bool.eqb x y
  | JNumber x, JNumber y => x =? y
  | JString x, JString y => eqb x y
  | _, _ => false
  end.

Definition setAdd (set : list JSValue) (x : JSValue) : list JSValue :=
  if existsb (sameValueZero x) set then set else set ++ [x].

(** [[...new Set(xs)]]: the values of [xs] in the order they first occur. *)
Definition newSet (xs : list JSValue) : list JSValue := fold_left setAdd xs [].

Definition web_research_branch (web_research : JSValue) : Result (option ProcessedEvent * bool) :=
  sources_gathered ← field web_research "sources_gathered";
  let sources := or sources_gathered (JArray []) in
  let numSources := lengthOf sources in
  labels ← mapLabel sources;
  let uniqueLabels := newSet (List.filter truthy labels) in
  exampleLabels ← join (JArray (take 3 uniqueLabels)) (js ", ");
  n ← toString numSources;
  related ← toString (or (JString exampleLabels) (JString (js "N/A")));
  entry (js "Web Research")
        (js "Gathered " ++ n ++ js " sources. Related to: " ++ related ++ js ".").

Definition classify_query_branch (classify_query : JSValue) : Result (option ProcessedEvent * bool) :=
  let needsWebSearch := or (optField classify_query "needs_web_search") (JBool false) in
  let needsKnowledgeSearch := or (optField classify_query "needs_knowledge_search") (JBool false) in
  let searchTypeText :=
    if truthy needsWebSearch && truthy needsKnowledgeSearch then
      globe ++ books ++ js " Web + Knowledge Search"
    else if truthy needsWebSearch then globe ++ js " Web Search"
    else if truthy needsKnowledgeSearch then books ++ js " Knowledge Search"
    else speech ++ js " Direct Answer" in
  entry (magnifier ++ js " Query Classification") (js "Target Node: " ++ searchTypeText).

(** [v !== 1] *)
Definition notOne (v : JSValue) : bool :=
  match v with
  | JNumber n => negb (n =? 1)
  | _ => true
  end.

Definition knowledge_search_branch (knowledge_search : JSValue) : Result (option ProcessedEvent * bool) :=
  knowledge_search_result ← field knowledge_search "knowledge_search_result";
  let results := or knowledge_search_result (JArray []) in
  search_query ← field knowledge_search "search_query";
  let searchQuery := or (optIndex0 search_query) (JString []) in
  let numResults := lengthOf results in
  q ← toString searchQuery;
  n ← toString numResults;
  entry (js "Knowledge Search")
        (js "Searching: " ++ quote ++ q ++ quote ++ js ". Found " ++ n
           ++ js " relevant result" ++ (if notOne numResults then js "s" else [])
           ++ js " in internal knowledge base.").

Definition sufficiency (isSufficient : JSValue) : JSString :=
  if truthy isSufficient then checkMark ++ js " Sufficient"
  else crossMark ++ js " Insufficient".

(** The [reflection] branch. Line 109 ends after [Array.isArray(followUpQueries)]:
    [queriesText] is that boolean. *)
Definition reflection_branch (reflection : JSValue) : Result (option ProcessedEvent * bool) :=
  is_sufficient ← field reflection "is_sufficient";
  let isSufficient := or is_sufficient (JBool false) in
  knowledge_gap ← field reflection "knowledge_gap";
  let knowledgeGap := or knowledge_gap (JString (js "No gap identified")) in
  follow_up_queries ← field reflection "follow_up_queries";
  let followUpQueries := or follow_up_queries (JArray []) in
  let queriesText := JBool (isArray followUpQueries) in
  gap ← toString knowledgeGap;
  queries ← toString queriesText;
  entry (js "Reflection")
        (js "Analysing Web Research Results: " ++ newline ++ sufficiency isSufficient
           ++ js ". " ++ newline ++ js "Reason: " ++ gap
           ++ js ". " ++ newline ++ js "Follow-up Queries: " ++ queries).

Definition knowledge_reflection_branch (knowledge_reflection : JSValue) : Result (option ProcessedEvent * bool) :=
  is_sufficient ← field knowledge_reflection "is_sufficient";
  let isSufficient := or is_sufficient (JBool false) in
  knowledge_gap ← field knowledge_reflection "knowledge_gap";
  let knowledgeGap := or knowledge_gap (JString (js "No gap identified")) in
  follow_up_queries ← field knowledge_reflection "follow_up_queries";
  let followUpQueries := or follow_up_queries (JArray []) in
  queriesText ←
    (if isArray followUpQueries then JString <$> join followUpQueries (js ", ")
     else
       s ← (if nullish followUpQueries then Ok JUndefined
            else JString <$> toString followUpQueries);
       Ok (or s (JString (js "No follow-up queries"))));
  gap ← toString knowledgeGap;
  queries ← toString queriesText;
  entry (js "Knowledge Reflection")
        (js "Analysing Knowledge Search Results: " ++ newline ++ sufficiency isSufficient
           ++ js ". " ++ newline ++ js "Reason: " ++ gap
           ++ js ". " ++ newline ++ js "Follow-up Queries: " ++ queries).

(** The stage keys, in the order the chain tests them. *)
Definition stageKeys : list string :=
  [ "input_guardrail"; "guardrail_block"; "generate_query"; "generate_knowledge_query";
    "web_research"; "classify_query"; "knowledge_search"; "reflection";
    "knowledge_reflection"; "finalize_answer"; "finalize_knowledge_answer" ]%string.

Definition classify (event : JSValue) : Result (option ProcessedEvent * bool) :=
  input_guardrail ← field event "input_guardrail";
  if truthy input_guardrail then input_guardrail_branch input_guardrail else
  guardrail_block ← field event "guardrail_block";
  if truthy guardrail_block then
    entry (shield ++ js " Request Blocked")
          (js "Request has been blocked by security guardrails for policy violations.") else
  generate_query ← field event "generate_query";
  if truthy generate_query then
    generate_query_branch "Generating Search Queries" generate_query else
  generate_knowledge_query ← field event "generate_knowledge_query";
  if truthy generate_knowledge_query then
    generate_query_branch "Generating Knowledge Search Queries" generate_knowledge_query else
  web_research ← field event "web_research";
  if truthy web_research then web_research_branch web_research else
  classify_query ← field event "classify_query";
  if truthy classify_query then classify_query_branch classify_query else
  knowledge_search ← field event "knowledge_search";
  if truthy knowledge_search then knowledge_search_branch knowledge_search else
  reflection ← field event "reflection";
  if truthy reflection then reflection_branch reflection else
  knowledge_reflection ← field event "knowledge_reflection";
  if truthy knowledge_reflection then knowledge_reflection_branch knowledge_reflection else
  finalize_answer ← field event "finalize_answer";
  if truthy finalize_answer then
    finalizeEntry (js "Finalizing Answer") (js "Composing and presenting the final answer.") else
  finalize_knowledge_answer ← field event "finalize_knowledge_answer";
  if truthy finalize_knowledge_answer then
    finalizeEntry (js "Finalizing Knowledge Answer")
                  (js "Composing and presenting the final knowledge-based answer.") else
  Ok (None, false).

(** ** State

    The component keeps two pieces of React state and one reference cell.
    [processedEventsTimeline] holds a reference to an array, and so does every
    entry of the [historicalActivities] object: the arrays live in a store, and
    an array built by a spread ([[...xs]]) is a new object of that store. *)

Abbreviation loc := nat (only parsing).

Record AppState : Type := {
  store : gmap loc (list ProcessedEvent);
  processedEventsTimeline : loc;
  historicalActivities : gmap JSString loc;
  hasFinalizeEventOccurredRef : bool
}.

(** The array at a location of the store. *)
Definition readArray (st : AppState) (l : loc) : list ProcessedEvent :=
  default [] (store st !! l).

(** The live timeline: the array the state refers to. *)
Definition liveTimeline (st : AppState) : list ProcessedEvent :=
  readArray st (processedEventsTimeline st).

(** The timeline archived under a message id, if any. *)
Definition archived (st : AppState) (id : JSString) : option (list ProcessedEvent) :=
  l ← historicalActivities st !! id; store st !! l.

(** [useState([])], [useState({})], [useRef(false)] *)
Definition initialState : AppState :=
  {| store := {[ 0%nat := [] ]};
     processedEventsTimeline := 0%nat;
     historicalActivities := ∅;
     hasFinalizeEventOccurredRef := false |}.

(** [setProcessedEventsTimeline(xs)] for a newly built array [xs]. *)
Definition setProcessedEventsTimeline (xs : list ProcessedEvent) (st : AppState) : AppState :=
  let l := fresh (dom (store st)) in
  {| store := <[ l := xs ]> (store st);
     processedEventsTimeline := l;
     historicalActivities := historicalActivities st;
     hasFinalizeEventOccurredRef := hasFinalizeEventOccurredRef st |}.

(** [setHistoricalActivities((prev) => ({...prev, [id]: xs}))] for a newly
    built array [xs]. *)
Definition setHistoricalActivities (id : JSString) (xs : list ProcessedEvent) (st : AppState) : AppState :=
  let l := fresh (dom (store st)) in
  {| store := <[ l := xs ]> (store st);
     processedEventsTimeline := processedEventsTimeline st;
     historicalActivities := <[ id := l ]> (historicalActivities st);
     hasFinalizeEventOccurredRef := hasFinalizeEventOccurredRef st |}.

(** [hasFinalizeEventOccurredRef.current = b] *)
Definition setFinalizeRef (b : bool) (st : AppState) : AppState :=
  {| store := store st;
     processedEventsTimeline := processedEventsTimeline st;
     historicalActivities := historicalActivities st;
     hasFinalizeEventOccurredRef := b |}.

(** An assignment into the array at [l] ([push], [splice], [xs[i] = e], ...):
    the object at [l] now has the elements [xs]. No handler of the component
    does this; it is what a mutation of the live array would be. *)
Definition mutateArray (l : loc) (xs : list ProcessedEvent) (st : AppState) : AppState :=
  {| store := <[ l := xs ]> (store st);
     processedEventsTimeline := processedEventsTimeline st;
     historicalActivities := historicalActivities st;
     hasFinalizeEventOccurredRef := hasFinalizeEventOccurredRef st |}.

(** ** The handlers *)

(** [onUpdateEvent]: the classification, then lines 141 to 146. When the
    classification raises, no state has been written yet. *)
Definition onUpdateEvent (st : AppState) (event : JSValue) : Result AppState :=
  '(processedEvent, finalize) ← classify event;
  let st := if finalize : bool then setFinalizeRef true st else st in
  match processedEvent with
  | Some e => Ok (setProcessedEventsTimeline (liveTimeline st ++ [e]) st)
  | None => Ok st
  end.

(** A message of the thread ([Message] of the SDK): its [type], its
    optional [id] and its [content]. *)
Record Message : Type := {
  msg_type : JSString;
  msg_id : option JSString;
  msg_content : JSValue
}.

(** [lastMessage.id], as a value. *)
Definition idValue (m : Message) : JSValue :=
  match msg_id m with
  | Some s => JString s
  | None => JUndefined
  end.

(** The effect of lines 164 to 179, run with the thread's [messages] and
    [isLoading]. *)
Definition archiveEffect (st : AppState) (messages : list Message) (isLoading : bool) : AppState :=
  if hasFinalizeEventOccurredRef st && negb isLoading && (0 <? length messages)%nat then
    let st1 :=
      match last messages with
      | Some lastMessage =>
          if eqb (msg_type lastMessage) (js "ai") && truthy (idValue lastMessage) then
            setHistoricalActivities (default [] (msg_id lastMessage)) (liveTimeline st) st
          else st
      | None => st
      end in
    setFinalizeRef false st1
  else st.

(** What [thread.submit] is called with. *)
Record SubmitPayload : Type := {
  messages : list Message;
  initial_search_query_count : Z;
  max_research_loops : Z;
  reasoning_model : JSString
}.

(** The [switch] of lines 193 to 206, from the initial values of the two
    counters. *)
Definition effortSwitch (effort : JSString) (counters : Z * Z) : Z * Z :=
  if eqb effort (js "low") then (1, 1)
  else if eqb effort (js "medium") then (3, 3)
  else if eqb effort (js "high") then (5, 10)
  else counters.

(** [handleSubmit], with the thread's messages and the clock [Date.now()]
    reads; the second component is the call of [thread.submit], if any. *)
Definition handleSubmit (st : AppState) (threadMessages : list Message) (now : Z)
    (submittedInputValue effort model : JSString) : AppState * option SubmitPayload :=
  if negb (truthy (JString (trim submittedInputValue))) then (st, None) else
  let st := setProcessedEventsTimeline [] st in
  let st := setFinalizeRef false st in
  let '(count, loops) := effortSwitch effort (0, 0) in
  let newMessages :=
    threadMessages ++ [ {| msg_type := js "human";
                           msg_content := JString submittedInputValue;
                           msg_id := Some (numberToString now) |} ] in
  (st, Some {| messages := newMessages;
               initial_search_query_count := count;
               max_research_loops := loops;
               reasoning_model := model |}).

End App.
Import JS App.

(** * Properties *)

(** ** Events, written as in the source of a test *)

Definition prop (k : string) (v : JSValue) : JSString * JSValue := (js k, v).

Definition text (s : string) : JSValue := JString (js s).

(** The stage keys none of which carries a truthy payload. *)
Definition noneTruthy (keys : list string) (event : JSValue) : bool :=
  forallb (fun k => negb (truthy (optField event k))) keys.

(** The shape the handler expects of an event: each nested field it uses as
    a list or as a text is missing ([undefined] or [null]) or has that type.
    The fields it only tests ([is_safe_input], [needs_web_search],
    [is_sufficient], ...) may hold anything. *)
Definition absentOr (P : JSValue -> bool) (v : JSValue) : bool := nullish v || P v.

Definition isString (v : JSValue) : bool :=
  match v with
  | JString _ => true
  | _ => false
  end.

Definition stringArray (v : JSValue) : bool :=
  match v with
  | JArray xs => forallb isString xs
  | _ => false
  end.

Definition isSource (s : JSValue) : bool :=
  match s with
  | JObject _ => absentOr isString (optField s "label")
  | _ => false
  end.

Definition sourceArray (v : JSValue) : bool :=
  match v with
  | JArray xs => forallb isSource xs
  | _ => false
  end.

Definition wellFormed (event : JSValue) : bool :=
  absentOr stringArray (optField (optField event "input_guardrail") "guardrail_violations")
  && absentOr isString (optField (optField event "input_guardrail") "original_input")
  && absentOr stringArray (optField (optField event "generate_query") "search_query")
  && absentOr stringArray (optField (optField event "generate_knowledge_query") "search_query")
  && absentOr sourceArray (optField (optField event "web_research") "sources_gathered")
  && absentOr stringArray (optField (optField event "knowledge_search") "search_query")
  && absentOr isArray (optField (optField event "knowledge_search") "knowledge_search_result")
  && absentOr isString (optField (optField event "reflection") "knowledge_gap")
  && absentOr isString (optField (optField event "knowledge_reflection") "knowledge_gap")
  && absentOr stringArray (optField (optField event "knowledge_reflection") "follow_up_queries").

(** ** Runs of the component

    A step is a call of one of the three handlers, or an assignment into the
    live array by some other code (which the component itself never does). *)

Inductive step : AppState -> AppState -> Prop :=
| step_onUpdateEvent st event st' :
    onUpdateEvent st event = Ok st' -> step st st'
| step_archiveEffect st msgs isLoading :
    step st (archiveEffect st msgs isLoading)
| step_handleSubmit st msgs now input effort model :
    step st (fst (handleSubmit st msgs now input effort model))
| step_mutate st xs :
    step st (mutateArray (processedEventsTimeline st) xs st).

Inductive reachable : AppState -> Prop :=
| reachable_initial : reachable initialState
| reachable_step st st' : reachable st -> step st st' -> reachable st'.

(** The steps that do not archive under the message id [id]. *)
Inductive stepAway (id : JSString) : AppState -> AppState -> Prop :=
| away_onUpdateEvent st event st' :
    onUpdateEvent st event = Ok st' -> stepAway id st st'
| away_archiveEffect st msgs isLoading :
    last msgs ≫= msg_id <> Some id -> stepAway id st (archiveEffect st msgs isLoading)
| away_handleSubmit st msgs now input effort model :
    stepAway id st (fst (handleSubmit st msgs now input effort model))
| away_mutate st xs :
    stepAway id st (mutateArray (processedEventsTimeline st) xs st).

(** The references of a state point into its store, and no archived array
    is the live array. *)
Record wf (st : AppState) : Prop := {
  wf_timeline : processedEventsTimeline st ∈ dom (store st);
  wf_archive : forall id l, historicalActivities st !! id = Some l -> l ∈ dom (store st);
  wf_separate : forall id l, historicalActivities st !! id = Some l -> l <> processedEventsTimeline st
}.

(** ** Concrete events, messages and states *)

Definition finalizeEvent : JSValue := JObject [prop "finalize_answer" (JObject [])].

Definition aiMessage (id : string) : Message :=
  {| msg_type := js "ai"; msg_id := Some (js id); msg_content := text "The answer." |}.

Definition humanMessage (id : string) : Message :=
  {| msg_type := js "human"; msg_id := Some (js id); msg_content := text "A question?" |}.

(** The state after a [finalize_answer] event on the initial state. *)
Definition finalizedState : AppState :=
  match onUpdateEvent initialState finalizeEvent with
  | Ok st => st
  | TypeError => initialState
  end.

(** The state after the effect then ran on a thread that ends with the
    answer [m1]. *)
Definition archivedState : AppState :=
  archiveEffect finalizedState [humanMessage "1"; aiMessage "m1"] false.

(** The state after one more event arrived, and the state after the live
    array was then emptied in place. *)
Definition continuedState : AppState :=
  match onUpdateEvent archivedState finalizeEvent with
  | Ok st => st
  | TypeError => archivedState
  end.

Definition disturbedState : AppState :=
  mutateArray (processedEventsTimeline continuedState) [] continuedState.

(** A [reflection] event with the follow-up queries [qs]. *)
Definition reflectionEvent (qs : list JSValue) : JSValue :=
  JObject [prop "reflection"
             (JObject [prop "is_sufficient" (JBool true);
                       prop "knowledge_gap" (text "gap");
                       prop "follow_up_queries" (JArray qs)])].

(** An event with two stage keys: a passed guardrail check and a finalize. *)
Definition guardedFinalizeEvent : JSValue :=
  JObject [prop "input_guardrail"
             (JObject [prop "is_safe_input" (JBool true);
                       prop "original_input" (text "hello")]);
           prop "finalize_answer" (JObject [])].

(** A [generate_query] event whose [search_query] is one text, not a list. *)
Definition malformedQueryEvent : JSValue :=
  JObject [prop "generate_query" (JObject [prop "search_query" (text "weather in Seoul")])].

(** The properties of an event of a stage the handler does not know. *)
Definition unknownProps : list (JSString * JSValue) :=
  [prop "route_query" (JObject [prop "target" (text "web")])].

(** The human message [handleSubmit] appends to the thread. *)
Definition submittedMessage (now : Z) (input : JSString) : Message :=
  {| msg_type := js "human"; msg_content := JString input; msg_id := Some (numberToString now) |}.

(** The stage keys the chain tests before the two finalize keys, and those
    it tests before [reflection]. *)
Definition keysBeforeFinalize : list string := take 9 stageKeys.

Definition keysBeforeReflection : list string := take 7 stageKeys.

(** ** Streams and dispatch *)

(** The events of a stream, handed to [onUpdateEvent] one after the other
    in the order of delivery; an event that raises ends the run. *)
Fixpoint onUpdateEvents (st : AppState) (events : list JSValue) : Result AppState :=
  match events with
  | [] => Ok st
  | event :: rest => st' ← onUpdateEvent st event; onUpdateEvents st' rest
  end.

(** The first stage key of the chain whose payload is truthy, with that
    payload. *)
Definition firstStage (event : JSValue) : option (string * JSValue) :=
  List.find (fun kp => truthy (snd kp)) (map (fun k => (k, optField event k)) stageKeys).

(** The branch the chain runs for a stage key. *)
Definition stageBranch (k : string) (payload : JSValue) : Result (option ProcessedEvent * bool) :=
  if String.eqb k "input_guardrail" then input_guardrail_branch payload
  else if String.eqb k "guardrail_block" then
    entry (shield ++ js " Request Blocked")
          (js "Request has been blocked by security guardrails for policy violations.")
  else if String.eqb k "generate_query" then
    generate_query_branch "Generating Search Queries" payload
  else if String.eqb k "generate_knowledge_query" then
    generate_query_branch "Generating Knowledge Search Queries" payload
  else if String.eqb k "web_research" then web_research_branch payload
  else if String.eqb k "classify_query" then classify_query_branch payload
  else if String.eqb k "knowledge_search" then knowledge_search_branch payload
  else if String.eqb k "reflection" then reflection_branch payload
  else if String.eqb k "knowledge_reflection" then knowledge_reflection_branch payload
  else if String.eqb k "finalize_answer" then
    finalizeEntry (js "Finalizing Answer") (js "Composing and presenting the final answer.")
  else
    finalizeEntry (js "Finalizing Knowledge Answer")
                  (js "Composing and presenting the final knowledge-based answer.").

(** The labels the [web_research] branch shows for the sources [xs]
    (lines 66 to 69). *)
Definition exampleLabels (xs : list JSValue) : list JSValue :=
  take 3 (newSet (List.filter truthy (map (fun s => optField s "label") xs))).

(** The steps of a stretch of the run in which no finalize event arrives:
    update events whose two finalize payloads are falsy, runs of the effect,
    submissions. *)
Inductive quietStep : AppState -> AppState -> Prop :=
| quiet_onUpdateEvent st event st' :
    truthy (optField event "finalize_answer") = false ->
    truthy (optField event "finalize_knowledge_answer") = false ->
    onUpdateEvent st event = Ok st' -> quietStep st st'
| quiet_archiveEffect st msgs isLoading :
    quietStep st (archiveEffect st msgs isLoading)
| quiet_handleSubmit st msgs now input effort model :
    quietStep st (fst (handleSubmit st msgs now input effort model)).

(** The test the chain makes before it sets the reference: none of the
    nine earlier stage keys is truthy and one of the two finalize keys is. *)
Definition finalizes (event : JSValue) : bool :=
  noneTruthy keysBeforeFinalize event
  && (truthy (optField event "finalize_answer")
      || truthy (optField event "finalize_knowledge_answer")).

(** The entries of a list of classifications, in order. *)
Definition entriesOf (results : list (option ProcessedEvent * bool)) : list ProcessedEvent :=
  omap fst results.

(** Two events that differ in everything but their first stage: a guardrail
    check alone, and the same check with a finalize key and a field of no
    stage behind it. *)
Definition guardrailProps : list (JSString * JSValue) :=
  [prop "input_guardrail"
     (JObject [prop "is_safe_input" (JBool true); prop "original_input" (text "hello")])].

Definition crowdedGuardrailProps : list (JSString * JSValue) :=
  [prop "run_id" (text "r-17");
   prop "input_guardrail"
     (JObject [prop "is_safe_input" (JBool true); prop "original_input" (text "hello")]);
   prop "finalize_answer" (JObject []);
   prop "reflection" (JObject [])].

(** A stream of three events of one turn. *)
Definition turnEvents : list JSValue :=
  [JObject [prop "generate_query" (JObject [prop "search_query" (JArray [text "a"; text "b"])])];
   JObject [prop "route_query" (JObject [])];
   finalizeEvent].

(** The state after a guardrail check on the initial state: an entry in
    the live timeline, the reference unset. *)
Definition guardedState : AppState :=
  match onUpdateEvent initialState (JObject guardrailProps) with
  | Ok st => st
  | TypeError => initialState
  end.

(** An element [Array.prototype.join] can print: [null], [undefined], or a
    value [ToString] converts. *)
Definition printableElement (x : JSValue) : bool := nullish x || isOk (toString x).

(** The values of [search_query] on which
    [payload?.search_query?.join(", ")] does not raise: [null] and [undefined],
    which the optional chain stops at, and the arrays of printable elements. *)
Definition searchQueryAccepted (v : JSValue) : bool :=
  match v with
  | JUndefined | JNull => true
  | JArray xs => forallb printableElement xs
  | _ => false
  end.

(** The text of a [knowledge_reflection] entry (line 126). *)
Definition knowledgeReflectionText (isSufficient : JSValue) (gap queries : JSString) : JSString :=
  js "Analysing Knowledge Search Results: " ++ newline ++ sufficiency isSufficient
    ++ js ". " ++ newline ++ js "Reason: " ++ gap
    ++ js ". " ++ newline ++ js "Follow-up Queries: " ++ queries.

(** A [generate_query] event whose [search_query] is the empty text. *)
Definition emptyQueryProps : list (JSString * JSValue) :=
  [prop "generate_query" (JObject [prop "search_query" (JString [])])].

(** A [knowledge_reflection] payload without follow-up queries. *)
Definition bareKnowledgeReflection : JSValue :=
  JObject [prop "is_sufficient" (JBool true)].

(** Five gathered sources: two labels that repeat, a source without a
    label, and a fourth label that is not shown. *)
Definition sampleSources : list JSValue :=
  [JObject [prop "label" (text "A")]; JObject [prop "label" (text "A")];
   JObject [prop "value" (text "no label")]; JObject [prop "label" (text "B")];
   JObject [prop "label" (text "C")]; JObject [prop "label" (text "B")];
   JObject [prop "label" (text "D")]].

Definition sampleWebResearch : JSValue :=
  JObject [prop "sources_gathered" (JArray sampleSources)].

(** A long input that passed the guardrail check. *)
Definition longSafeInput : JSValue :=
  JObject [prop "is_safe_input" (JBool true);
           prop "original_input" (JString (repeat 97%N 500))].

(** An entry that is not a finalize entry and whose data is a text. *)
Definition plainEntry (r : option ProcessedEvent * bool) : Prop :=
  exists t d, r = (Some {| title := t; data := JString d |}, false).

(** Splits [noneTruthy keys event = true] into one equation per key. *)
Ltac split_noneTruthy H :=
  unfold noneTruthy in H;
  unfold keysBeforeFinalize, keysBeforeReflection in H;
  cbn [forallb take stageKeys] in H;
  rewrite ?andb_true_iff, ?negb_true_iff in H;
  destruct_and? H.

(** ** The chain of conditionals on an object *)

Lemma field_object props k :
  field (JObject props) k = Ok (optField (JObject props) k).
Proof. reflexivity. Qed.

Lemma field_truthy v k : truthy v = true -> field v k = Ok (optField v k).
Proof. destruct v; simpl; intros; congruence. Qed.

Lemma optField_truthy_object event k :
  truthy (optField event k) = true -> exists props, event = JObject props.
Proof. destruct event; simpl; try discriminate. eauto. Qed.

Lemma classify_object props :
  classify (JObject props) =
    if truthy (optField (JObject props) "input_guardrail") then input_guardrail_branch (optField (JObject props) "input_guardrail") else
    if truthy (optField (JObject props) "guardrail_block") then
      entry (shield ++ js " Request Blocked")
            (js "Request has been blocked by security guardrails for policy violations.") else
    if truthy (optField (JObject props) "generate_query") then
      generate_query_branch "Generating Search Queries" (optField (JObject props) "generate_query") else
    if truthy (optField (JObject props) "generate_knowledge_query") then
      generate_query_branch "Generating Knowledge Search Queries" (optField (JObject props) "generate_knowledge_query") else
    if truthy (optField (JObject props) "web_research") then web_research_branch (optField (JObject props) "web_research") else
    if truthy (optField (JObject props) "classify_query") then classify_query_branch (optField (JObject props) "classify_query") else
    if truthy (optField (JObject props) "knowledge_search") then knowledge_search_branch (optField (JObject props) "knowledge_search") else
    if truthy (optField (JObject props) "reflection") then reflection_branch (optField (JObject props) "reflection") else
    if truthy (optField (JObject props) "knowledge_reflection") then
      knowledge_reflection_branch (optField (JObject props) "knowledge_reflection") else
    if truthy (optField (JObject props) "finalize_answer") then
      finalizeEntry (js "Finalizing Answer") (js "Composing and presenting the final answer.") else
    if truthy (optField (JObject props) "finalize_knowledge_answer") then
      finalizeEntry (js "Finalizing Knowledge Answer")
                    (js "Composing and presenting the final knowledge-based answer.") else
    Ok (None, false).
Proof. reflexivity. Qed.

Lemma absent_noneTruthy props keys :
  Forall (fun k => ownProperty (js k) props = None) keys ->
  noneTruthy keys (JObject props) = true.
Proof.
  induction 1 as [|k keys Hk _ IH]; [reflexivity|].
  unfold noneTruthy in *. cbn [forallb]. rewrite IH.
  unfold optField. rewrite Hk. reflexivity.
Qed.

Lemma classify_no_stage props :
  noneTruthy stageKeys (JObject props) = true ->
  classify (JObject props) = Ok (None, false).
Proof.
  intros H. split_noneTruthy H.
  rewrite classify_object.
  repeat match goal with E : truthy _ = false |- _ => rewrite E; clear E end.
  reflexivity.
Qed.

Lemma classify_finalize event :
  noneTruthy keysBeforeFinalize event = true ->
  truthy (optField event "finalize_answer") = true
  \/ truthy (optField event "finalize_knowledge_answer") = true ->
  exists e, classify event = Ok (Some e, true).
Proof.
  intros H Hfin.
  assert (exists props, event = JObject props) as [props ->]
    by (destruct Hfin as [Hf|Hf]; apply optField_truthy_object in Hf; exact Hf).
  split_noneTruthy H.
  rewrite classify_object.
  repeat match goal with E : truthy _ = false |- _ => rewrite E; clear E end.
  destruct (truthy (optField (JObject props) "finalize_answer")) eqn:Hf.
  - eexists. reflexivity.
  - destruct Hfin as [Hfin|Hfin]; [discriminate|]. rewrite Hfin. eexists. reflexivity.
Qed.

(** ** Well-formed events never raise *)

Lemma joinWith_strings sep xs :
  forallb isString xs = true -> isOk (joinWith toString sep xs) = true.
Proof.
  induction xs as [|x xs IH]; [reflexivity|].
  cbn [forallb]. rewrite andb_true_iff. intros [Hx Hxs].
  destruct x; try discriminate. specialize (IH Hxs).
  destruct xs as [|y ys]; [reflexivity|].
  change (joinWith toString sep (JString s :: y :: ys))
    with (r ← joinWith toString sep (y :: ys); Ok (s ++ sep ++ r)).
  destruct (joinWith toString sep (y :: ys)); [reflexivity|discriminate].
Qed.

Lemma or_stringArray v :
  absentOr stringArray v = true ->
  exists xs, or v (JArray []) = JArray xs /\ forallb isString xs = true.
Proof.
  unfold absentOr, or. destruct v; simpl; try discriminate; eauto.
Qed.

Lemma or_string v d :
  absentOr isString v = true -> exists s, or v (JString d) = JString s.
Proof.
  unfold absentOr, or. destruct v; simpl; try discriminate; eauto.
  destruct (negb _); eauto.
Qed.

Lemma input_guardrail_branch_ok g :
  absentOr stringArray (optField g "guardrail_violations") = true ->
  absentOr isString (optField g "original_input") = true ->
  isOk (input_guardrail_branch g) = true.
Proof.
  intros Hv Ho. unfold input_guardrail_branch.
  destruct (or_stringArray _ Hv) as (xs & -> & Hxs).
  destruct (or_string _ [] Ho) as (s & ->).
  destruct (truthy _); [reflexivity|].
  cbn [join]. pose proof (joinWith_strings (js ", ") xs Hxs) as Hj.
  destruct (joinWith toString (js ", ") xs); [reflexivity|discriminate].
Qed.

Lemma search_query_text_ok payload :
  absentOr stringArray (optField payload "search_query") = true ->
  isOk (search_query_text payload) = true.
Proof.
  intros H. unfold search_query_text, absentOr in *.
  destruct (nullish _) eqn:Hn; [reflexivity|]. simpl in H.
  destruct (optField payload "search_query"); try discriminate.
  cbn [join]. pose proof (joinWith_strings (js ", ") elems H) as Hj.
  destruct (joinWith toString (js ", ") elems); [reflexivity|discriminate].
Qed.

Lemma generate_query_branch_ok t payload :
  absentOr stringArray (optField payload "search_query") = true ->
  isOk (generate_query_branch t payload) = true.
Proof.
  intros H. unfold generate_query_branch.
  pose proof (search_query_text_ok payload H) as Hs.
  destruct (search_query_text payload); [reflexivity|discriminate].
Qed.

Lemma mapLabel_sources xs :
  forallb isSource xs = true ->
  mapLabel (JArray xs) = Ok (map (fun s => optField s "label") xs)
  /\ forallb (absentOr isString) (map (fun s => optField s "label") xs) = true.
Proof.
  unfold mapLabel. induction xs as [|x xs IH]; [split; reflexivity|].
  cbn [forallb map]. rewrite andb_true_iff. intros [Hx Hxs].
  destruct (IH Hxs) as [IH1 IH2].
  destruct x; try discriminate. unfold isSource in Hx.
  split.
  - change (mapM (fun s => field s "label") (JObject props :: xs))
      with (x' ← field (JObject props) "label";
            l' ← mapM (fun s => field s "label") xs; mret (x' :: l')).
    rewrite field_object, IH1. reflexivity.
  - rewrite Hx, IH2. reflexivity.
Qed.

Lemma filter_truthy_strings ls :
  forallb (absentOr isString) ls = true ->
  forallb isString (List.filter truthy ls) = true.
Proof.
  induction ls as [|l ls IH]; [reflexivity|].
  cbn [forallb List.filter]. rewrite andb_true_iff. intros [Hl Hls].
  destruct (truthy l) eqn:Ht; [|auto].
  cbn [forallb]. rewrite (IH Hls), andb_true_r.
  destruct l; try discriminate; reflexivity.
Qed.

Lemma fold_setAdd_forallb (P : JSValue -> bool) xs acc :
  forallb P acc = true -> forallb P xs = true ->
  forallb P (fold_left setAdd xs acc) = true.
Proof.
  revert acc. induction xs as [|x xs IH]; intros acc Hacc Hxs; [exact Hacc|].
  cbn [forallb] in Hxs. apply andb_true_iff in Hxs as [Hx Hxs].
  cbn [fold_left]. apply IH; [|exact Hxs].
  unfold setAdd. destruct (existsb _ acc); [exact Hacc|].
  rewrite forallb_app, Hacc. cbn [forallb]. rewrite Hx. reflexivity.
Qed.

Lemma forallb_take {A} (P : A -> bool) n xs :
  forallb P xs = true -> forallb P (take n xs) = true.
Proof.
  revert n. induction xs as [|x xs IH]; intros [|n]; try reflexivity.
  cbn [forallb take]. rewrite !andb_true_iff. intros [Hx Hxs]. auto.
Qed.

Lemma web_research_branch_ok w :
  truthy w = true ->
  absentOr sourceArray (optField w "sources_gathered") = true ->
  isOk (web_research_branch w) = true.
Proof.
  intros Hw Hs. unfold web_research_branch.
  rewrite (field_truthy _ _ Hw). cbn [mbind Result_bind].
  assert (exists xs, or (optField w "sources_gathered") (JArray []) = JArray xs
                     /\ forallb isSource xs = true) as (xs & -> & Hxs).
  { unfold absentOr, or in *. destruct (optField w "sources_gathered");
      simpl in *; try discriminate; eauto. }
  destruct (mapLabel_sources xs Hxs) as [-> Hlabels].
  cbn [mbind Result_bind join lengthOf].
  set (labels := take 3 _).
  assert (forallb isString labels = true) as Hl.
  { apply forallb_take, fold_setAdd_forallb; [reflexivity|].
    apply filter_truthy_strings, Hlabels. }
  pose proof (joinWith_strings (js ", ") labels Hl) as Hj.
  destruct (joinWith toString (js ", ") labels) as [t|]; [|discriminate].
  cbn [toString mbind Result_bind]. unfold or.
  destruct (truthy (JString t)); reflexivity.
Qed.

Lemma knowledge_search_branch_ok k :
  truthy k = true ->
  absentOr stringArray (optField k "search_query") = true ->
  absentOr isArray (optField k "knowledge_search_result") = true ->
  isOk (knowledge_search_branch k) = true.
Proof.
  intros Hk Hq Hr. unfold knowledge_search_branch.
  rewrite !(field_truthy _ _ Hk). cbn [mbind Result_bind].
  assert (exists xs, or (optField k "knowledge_search_result") (JArray []) = JArray xs)
    as (xs & ->).
  { unfold absentOr, or in *. destruct (optField k "knowledge_search_result");
      simpl in *; try discriminate; eauto. }
  assert (exists s, or (optIndex0 (optField k "search_query")) (JString []) = JString s)
    as (s & ->).
  { unfold absentOr, or in *. destruct (optField k "search_query") as [| | | | |xs'|];
      simpl in *; try discriminate; eauto.
    destruct xs' as [|x xs']; simpl in *; eauto.
    destruct x; simpl in *; try discriminate. destruct (negb _); eauto. }
  reflexivity.
Qed.

Lemma reflection_branch_ok r :
  truthy r = true ->
  absentOr isString (optField r "knowledge_gap") = true ->
  isOk (reflection_branch r) = true.
Proof.
  intros Hr Hg. unfold reflection_branch.
  rewrite !(field_truthy _ _ Hr). cbn [mbind Result_bind].
  destruct (or_string _ (js "No gap identified") Hg) as (s & ->).
  reflexivity.
Qed.

Lemma knowledge_reflection_branch_ok r :
  truthy r = true ->
  absentOr isString (optField r "knowledge_gap") = true ->
  absentOr stringArray (optField r "follow_up_queries") = true ->
  isOk (knowledge_reflection_branch r) = true.
Proof.
  intros Hr Hg Hq. unfold knowledge_reflection_branch.
  rewrite !(field_truthy _ _ Hr). cbn [mbind Result_bind].
  destruct (or_string _ (js "No gap identified") Hg) as (s & ->).
  destruct (or_stringArray _ Hq) as (xs & -> & Hxs).
  cbn [isArray join]. pose proof (joinWith_strings (js ", ") xs Hxs) as Hj.
  destruct (joinWith toString (js ", ") xs); [reflexivity|discriminate].
Qed.

Lemma classify_wellFormed props :
  wellFormed (JObject props) = true -> isOk (classify (JObject props)) = true.
Proof.
  unfold wellFormed. rewrite !andb_true_iff. intros H. destruct_and? H.
  rewrite classify_object.
  repeat match goal with
         | |- context [if truthy ?v then _ else _] =>
             let E := fresh "E" in destruct (truthy v) eqn:E
         end;
    auto using input_guardrail_branch_ok, generate_query_branch_ok,
      web_research_branch_ok, knowledge_search_branch_ok, reflection_branch_ok,
      knowledge_reflection_branch_ok.
Qed.

(** ** The store *)

Lemma fresh_not_allocated (st : AppState) : store st !! fresh (dom (store st)) = None.
Proof. apply not_elem_of_dom, is_fresh. Qed.

Lemma allocated_not_fresh (st : AppState) l :
  l ∈ dom (store st) -> fresh (dom (store st)) <> l.
Proof. intros Hl <-. exact (is_fresh _ Hl). Qed.

Lemma liveTimeline_setProcessedEventsTimeline xs st :
  liveTimeline (setProcessedEventsTimeline xs st) = xs.
Proof.
  unfold liveTimeline, readArray, setProcessedEventsTimeline. cbn.
  rewrite lookup_insert_eq. reflexivity.
Qed.

Lemma liveTimeline_setFinalizeRef b st :
  liveTimeline (setFinalizeRef b st) = liveTimeline st.
Proof. reflexivity. Qed.

Lemma liveTimeline_setHistoricalActivities id st :
  liveTimeline (setHistoricalActivities id (liveTimeline st) st) = liveTimeline st.
Proof.
  unfold liveTimeline at 1, readArray, setHistoricalActivities.
  cbn [store processedEventsTimeline].
  destruct (decide (fresh (dom (store st)) = processedEventsTimeline st)) as [Heq|Hne].
  - rewrite <- Heq, lookup_insert_eq. reflexivity.
  - rewrite lookup_insert_ne by exact Hne. reflexivity.
Qed.

Lemma archived_setHistoricalActivities id xs st :
  archived (setHistoricalActivities id xs st) id = Some xs.
Proof.
  unfold archived, setHistoricalActivities. cbn.
  rewrite lookup_insert_eq. cbn. apply lookup_insert_eq.
Qed.

Lemma archived_setFinalizeRef b st id :
  archived (setFinalizeRef b st) id = archived st id.
Proof. reflexivity. Qed.

Lemma archived_setProcessedEventsTimeline xs st id :
  wf st -> archived (setProcessedEventsTimeline xs st) id = archived st id.
Proof.
  intros Hwf. unfold archived, setProcessedEventsTimeline. cbn.
  destruct (historicalActivities st !! id) as [l|] eqn:Hl; [|reflexivity]. cbn.
  apply lookup_insert_ne, allocated_not_fresh. eapply wf_archive; eauto.
Qed.

Lemma archived_mutate_live xs st id :
  wf st -> archived (mutateArray (processedEventsTimeline st) xs st) id = archived st id.
Proof.
  intros Hwf. unfold archived, mutateArray. cbn.
  destruct (historicalActivities st !! id) as [l|] eqn:Hl; [|reflexivity]. cbn.
  apply lookup_insert_ne. intros Heq. eapply wf_separate; eauto.
Qed.

Lemma liveTimeline_mutate_live xs st :
  liveTimeline (mutateArray (processedEventsTimeline st) xs st) = xs.
Proof.
  unfold liveTimeline, readArray, mutateArray. cbn.
  rewrite lookup_insert_eq. reflexivity.
Qed.

(** ** The invariant *)

Lemma wf_initialState : wf initialState.
Proof.
  split; cbn.
  - rewrite dom_singleton_L. set_solver.
  - intros id l H. rewrite lookup_empty in H. discriminate.
  - intros id l H. rewrite lookup_empty in H. discriminate.
Qed.

Lemma wf_setFinalizeRef b st : wf st -> wf (setFinalizeRef b st).
Proof. intros [H1 H2 H3]. split; assumption. Qed.

Lemma wf_setProcessedEventsTimeline xs st :
  wf st -> wf (setProcessedEventsTimeline xs st).
Proof.
  intros [H1 H2 H3]. split; cbn.
  - rewrite dom_insert_L. set_solver.
  - intros id l H. rewrite dom_insert_L. specialize (H2 id l H). set_solver.
  - intros id l H. specialize (H2 id l H). intros ->. exact (is_fresh _ H2).
Qed.

Lemma wf_setHistoricalActivities id xs st :
  wf st -> wf (setHistoricalActivities id xs st).
Proof.
  intros [H1 H2 H3]. split; cbn.
  - rewrite dom_insert_L. set_solver.
  - intros id' l H. rewrite dom_insert_L.
    destruct (decide (id = id')) as [->|Hne].
    + rewrite lookup_insert_eq in H. injection H as <-. set_solver.
    + rewrite lookup_insert_ne in H by exact Hne. specialize (H2 id' l H). set_solver.
  - intros id' l H.
    destruct (decide (id = id')) as [->|Hne].
    + rewrite lookup_insert_eq in H. injection H as <-.
      intros Heq. rewrite <- Heq in H1. exact (is_fresh _ H1).
    + rewrite lookup_insert_ne in H by exact Hne. eauto.
Qed.

Lemma wf_mutate_live xs st :
  wf st -> wf (mutateArray (processedEventsTimeline st) xs st).
Proof.
  intros [H1 H2 H3]. split; cbn.
  - rewrite dom_insert_L. set_solver.
  - intros id l H. rewrite dom_insert_L. specialize (H2 id l H). set_solver.
  - exact H3.
Qed.

Lemma onUpdateEvent_inv st event st' :
  onUpdateEvent st event = Ok st' ->
  exists processedEvent finalize,
    classify event = Ok (processedEvent, finalize)
    /\ st' = let st1 := if finalize : bool then setFinalizeRef true st else st in
             match processedEvent with
             | Some e => setProcessedEventsTimeline (liveTimeline st1 ++ [e]) st1
             | None => st1
             end.
Proof.
  unfold onUpdateEvent. destruct (classify event) as [[pe fin]|]; [|discriminate].
  cbn. intros H. exists pe, fin. split; [reflexivity|].
  destruct pe; injection H as <-; reflexivity.
Qed.

Lemma wf_onUpdateEvent st event st' :
  wf st -> onUpdateEvent st event = Ok st' -> wf st'.
Proof.
  intros Hwf H. apply onUpdateEvent_inv in H as (pe & fin & _ & ->). cbn zeta.
  assert (wf (if fin then setFinalizeRef true st else st)) as Hwf1
    by (destruct fin; auto using wf_setFinalizeRef).
  destruct pe; auto using wf_setProcessedEventsTimeline.
Qed.

Lemma wf_archiveEffect st msgs isLoading :
  wf st -> wf (archiveEffect st msgs isLoading).
Proof.
  intros Hwf. unfold archiveEffect.
  destruct (_ && _ && _); [|exact Hwf].
  apply wf_setFinalizeRef. destruct (last msgs); [|exact Hwf].
  destruct (_ && _); auto using wf_setHistoricalActivities.
Qed.

Lemma wf_handleSubmit st msgs now input effort model :
  wf st -> wf (fst (handleSubmit st msgs now input effort model)).
Proof.
  intros Hwf. unfold handleSubmit.
  destruct (negb _); [exact Hwf|].
  destruct (effortSwitch effort (0, 0)). cbn [fst].
  auto using wf_setFinalizeRef, wf_setProcessedEventsTimeline.
Qed.

Lemma wf_step st st' : wf st -> step st st' -> wf st'.
Proof.
  intros Hwf Hstep. destruct Hstep;
    eauto using wf_onUpdateEvent, wf_archiveEffect, wf_handleSubmit, wf_mutate_live.
Qed.

Lemma wf_reachable st : reachable st -> wf st.
Proof. induction 1; eauto using wf_initialState, wf_step. Qed.

(** ** The handlers, case by case *)

Lemma truthy_string s : truthy (JString s) = true <-> s <> [].
Proof.
  unfold truthy, eqb. rewrite negb_true_iff, bool_decide_eq_false. reflexivity.
Qed.

Lemma eqb_neq s t : s <> t -> eqb s t = false.
Proof. intros H. apply bool_decide_eq_false. exact H. Qed.

Lemma last_nonempty {A} (l : list A) x : last l = Some x -> (0 <? length l)%nat = true.
Proof. destruct l; [discriminate|reflexivity]. Qed.

(** The effect when every test passes. *)
Lemma archiveEffect_archives st msgs m id :
  hasFinalizeEventOccurredRef st = true ->
  last msgs = Some m -> msg_type m = js "ai" -> msg_id m = Some id -> id <> [] ->
  archiveEffect st msgs false
  = setFinalizeRef false (setHistoricalActivities id (liveTimeline st) st).
Proof.
  intros Hlatch Hlast Htype Hid Hne. unfold archiveEffect.
  rewrite Hlatch, (last_nonempty _ _ Hlast), Hlast. cbn [andb negb].
  unfold idValue. rewrite Htype, Hid.
  apply truthy_string in Hne. rewrite Hne.
  replace (eqb (js "ai") (js "ai")) with true by (symmetry; apply bool_decide_eq_true; reflexivity).
  reflexivity.
Qed.

(** The effect when the reference is not set. *)
Lemma archiveEffect_unset st msgs isLoading :
  hasFinalizeEventOccurredRef st = false -> archiveEffect st msgs isLoading = st.
Proof. intros H. unfold archiveEffect. rewrite H. reflexivity. Qed.

(** The effect never touches the live timeline. *)
Lemma archiveEffect_liveTimeline st msgs isLoading :
  liveTimeline (archiveEffect st msgs isLoading) = liveTimeline st.
Proof.
  unfold archiveEffect. destruct (_ && _ && _); [|reflexivity].
  rewrite liveTimeline_setFinalizeRef.
  destruct (last msgs); [|reflexivity].
  destruct (_ && _); [|reflexivity].
  apply liveTimeline_setHistoricalActivities.
Qed.

Lemma handleSubmit_blank st msgs now input effort model :
  trim input = [] -> handleSubmit st msgs now input effort model = (st, None).
Proof.
  intros H. unfold handleSubmit. rewrite H. reflexivity.
Qed.

Lemma handleSubmit_dispatch st msgs now input effort model :
  trim input <> [] ->
  handleSubmit st msgs now input effort model
  = (setFinalizeRef false (setProcessedEventsTimeline [] st),
     Some {| messages := msgs ++ [submittedMessage now input];
             initial_search_query_count := fst (effortSwitch effort (0, 0));
             max_research_loops := snd (effortSwitch effort (0, 0));
             reasoning_model := model |}).
Proof.
  intros H. unfold handleSubmit. apply truthy_string in H. rewrite H. cbn [negb].
  destruct (effortSwitch effort (0, 0)). reflexivity.
Qed.

Lemma onUpdateEvent_liveTimeline st event st' :
  onUpdateEvent st event = Ok st' ->
  liveTimeline st' = liveTimeline st
  \/ exists e, liveTimeline st' = liveTimeline st ++ [e].
Proof.
  intros H. apply onUpdateEvent_inv in H as (pe & fin & _ & ->). cbn zeta.
  assert (liveTimeline (if fin then setFinalizeRef true st else st) = liveTimeline st) as E
    by (destruct fin; reflexivity).
  destruct pe as [e|]; [right|left; exact E].
  exists e. rewrite liveTimeline_setProcessedEventsTimeline, E. reflexivity.
Qed.

Lemma archived_onUpdateEvent st event st' id :
  wf st -> onUpdateEvent st event = Ok st' -> archived st' id = archived st id.
Proof.
  intros Hwf H. apply onUpdateEvent_inv in H as (pe & fin & _ & ->). cbn zeta.
  assert (wf (if fin then setFinalizeRef true st else st)
          /\ archived (if fin then setFinalizeRef true st else st) id = archived st id)
    as [Hwf1 E] by (destruct fin; auto using wf_setFinalizeRef).
  destruct pe as [e|]; [|exact E].
  rewrite archived_setProcessedEventsTimeline by exact Hwf1. exact E.
Qed.

Lemma archived_handleSubmit st msgs now input effort model id :
  wf st -> archived (fst (handleSubmit st msgs now input effort model)) id = archived st id.
Proof.
  intros Hwf. destruct (decide (trim input = [])) as [Hb|Hb].
  - rewrite handleSubmit_blank by exact Hb. reflexivity.
  - rewrite handleSubmit_dispatch by exact Hb. cbn [fst].
    rewrite archived_setFinalizeRef. apply archived_setProcessedEventsTimeline, Hwf.
Qed.

(** The text of a [reflection] entry: the follow-up queries enter it only
    through [Array.isArray]. *)
Lemma reflection_branch_text r :
  truthy r = true ->
  reflection_branch r =
    gap ← toString (or (optField r "knowledge_gap") (JString (js "No gap identified")));
    entry (js "Reflection")
      (js "Analysing Web Research Results: " ++ newline
         ++ sufficiency (or (optField r "is_sufficient") (JBool false))
         ++ js ". " ++ newline ++ js "Reason: " ++ gap
         ++ js ". " ++ newline ++ js "Follow-up Queries: "
         ++ js (if isArray (or (optField r "follow_up_queries") (JArray [])) then "true" else "false")).
Proof.
  intros Hr. unfold reflection_branch.
  rewrite !(field_truthy _ _ Hr). cbn [mbind Result_bind].
  destruct (toString (or (optField r "knowledge_gap") _)); reflexivity.
Qed.

Lemma archived_setHistoricalActivities_ne id' xs st id :
  wf st -> id' <> id ->
  archived (setHistoricalActivities id' xs st) id = archived st id.
Proof.
  intros Hwf Hne. unfold archived, setHistoricalActivities. cbn.
  rewrite lookup_insert_ne by exact Hne.
  destruct (historicalActivities st !! id) as [l|] eqn:Hl; [|reflexivity]. cbn.
  apply lookup_insert_ne, allocated_not_fresh. eapply wf_archive; eauto.
Qed.

Lemma archived_archiveEffect_ne st msgs isLoading id :
  wf st -> last msgs ≫= msg_id <> Some id ->
  archived (archiveEffect st msgs isLoading) id = archived st id.
Proof.
  intros Hwf Hne. unfold archiveEffect.
  destruct (_ && _ && _); [|reflexivity].
  rewrite archived_setFinalizeRef.
  destruct (last msgs) as [m|]; [|reflexivity]. cbn in Hne.
  unfold idValue. destruct (msg_id m) as [id'|]; [|rewrite andb_false_r; reflexivity].
  destruct (_ && _); [|reflexivity].
  apply archived_setHistoricalActivities_ne; [exact Hwf|]. cbn. congruence.
Qed.

Lemma stepAway_step id st st' : stepAway id st st' -> step st st'.
Proof. destruct 1; eauto using step. Qed.

Lemma archived_stepAway id st st' :
  wf st -> stepAway id st st' -> archived st' id = archived st id.
Proof.
  intros Hwf Hstep. destruct Hstep;
    eauto using archived_onUpdateEvent, archived_archiveEffect_ne,
      archived_handleSubmit, archived_mutate_live.
Qed.

Lemma archived_stable id st st' :
  wf st -> rtc (stepAway id) st st' -> archived st' id = archived st id.
Proof.
  intros Hwf Hsteps. induction Hsteps as [st|st st1 st' Hstep _ IH]; [reflexivity|].
  rewrite IH by eauto using wf_step, stepAway_step.
  eauto using archived_stepAway.
Qed.

Lemma wf_stepsAway id st st' : wf st -> rtc (stepAway id) st st' -> wf st'.
Proof.
  intros Hwf Hsteps. induction Hsteps; eauto using wf_step, stepAway_step.
Qed.

Lemma reachable_finalizedState : reachable finalizedState.
Proof.
  eapply reachable_step; [apply reachable_initial|].
  apply (step_onUpdateEvent initialState finalizeEvent). reflexivity.
Qed.

Lemma archivedState_disturbed : rtc (stepAway (js "m1")) archivedState disturbedState.
Proof.
  apply rtc_l with continuedState.
  - apply (away_onUpdateEvent _ archivedState finalizeEvent). vm_compute. reflexivity.
  - apply rtc_once, away_mutate.
Qed.

(** Every event that reaches the [reflection] branch gets the title, the
    sufficiency flag and the reason (or its default); of the follow-up queries
    only whether they are an array. *)
Lemma classify_reflection props :
  noneTruthy keysBeforeReflection (JObject props) = true ->
  truthy (optField (JObject props) "reflection") = true ->
  classify (JObject props) =
    let r := optField (JObject props) "reflection" in
    gap ← toString (or (optField r "knowledge_gap") (JString (js "No gap identified")));
    entry (js "Reflection")
      (js "Analysing Web Research Results: " ++ newline
         ++ sufficiency (or (optField r "is_sufficient") (JBool false))
         ++ js ". " ++ newline ++ js "Reason: " ++ gap
         ++ js ". " ++ newline ++ js "Follow-up Queries: "
         ++ js (if isArray (or (optField r "follow_up_queries") (JArray [])) then "true" else "false")).
Proof.
  intros H Hr. split_noneTruthy H.
  rewrite classify_object.
  repeat match goal with E : truthy _ = false |- _ => rewrite E; clear E end.
  rewrite Hr. apply reflection_branch_text, Hr.
Qed.

(** ** The scenarios of the specification, run on the model *)

Example scenarios_wellFormed :
  wellFormed (reflectionEvent [text "q1"; text "q2"]) = true
  /\ wellFormed guardedFinalizeEvent = true
  /\ wellFormed malformedQueryEvent = false.
Proof. repeat split; reflexivity. Qed.


Example scenario_web_research :
  classify
    (JObject [prop "web_research"
                (JObject [prop "sources_gathered"
                            (JArray [JObject [prop "label" (text "A")];
                                     JObject [prop "label" (text "A")];
                                     JObject [prop "label" (text "B")]])])])
  = entry (js "Web Research") (js "Gathered 3 sources. Related to: A, B.").
Proof. reflexivity. Qed.

Example scenario_query_classification :
  classify
    (JObject [prop "classify_query"
                (JObject [prop "needs_web_search" (JBool true);
                          prop "needs_knowledge_search" (JBool false)])])
  = entry (magnifier ++ js " Query Classification")
          (js "Target Node: " ++ globe ++ js " Web Search").
Proof. reflexivity. Qed.

Example scenario_input_guardrail :
  classify
    (JObject [prop "input_guardrail"
                (JObject [prop "is_safe_input" (JBool false);
                          prop "guardrail_violations" (JArray [text "profanity"]);
                          prop "original_input" (JString (repeat 120%N 60))])])
  = entry (siren ++ js " Security Violation Detected")
          (js "Input blocked due to: profanity. Original input length: 60 characters.").
Proof. reflexivity. Qed.

Example scenario_finalize_then_idle :
  archived archivedState (js "m1") = Some (liveTimeline finalizedState)
  /\ hasFinalizeEventOccurredRef finalizedState = true
  /\ hasFinalizeEventOccurredRef archivedState = false.
Proof. repeat split; reflexivity. Qed.

(** The sibling branch does join the follow-up queries. *)
Example knowledge_reflection_joins_the_queries :
  classify
    (JObject [prop "knowledge_reflection"
                (JObject [prop "is_sufficient" (JBool false);
                          prop "follow_up_queries" (JArray [text "q1"; text "q2"])])])
  = entry (js "Knowledge Reflection")
      (js "Analysing Knowledge Search Results: " ++ newline
         ++ crossMark ++ js " Insufficient. " ++ newline
         ++ js "Reason: No gap identified. " ++ newline
         ++ js "Follow-up Queries: q1, q2").
Proof. reflexivity. Qed.

(** * The properties of the specification *)

(** ** Classification *)

(** C1 (the code departs from it). A [reflection] event should give an
    entry titled "Reflection" whose text carries the follow-up queries joined
    with ", ". The title, the sufficiency flag and the reason are there, but
    whatever the queries [qs] are, the text ends with "Follow-up Queries:
    true": the statement of line 109 stops after [Array.isArray(followUpQueries)],
    and the boolean is what is printed. *)
Theorem C1_reflection_prints_isArray_for_the_queries (qs : list JSValue) :
  classify (reflectionEvent qs)
  = entry (js "Reflection")
      (js "Analysing Web Research Results: " ++ newline
         ++ checkMark ++ js " Sufficient. " ++ newline
         ++ js "Reason: gap. " ++ newline
         ++ js "Follow-up Queries: true").
Proof. reflexivity. Qed.

(** C3, as stated, fails: an event that carries [finalize_answer] behind a
    truthy [input_guardrail] is classified as a guardrail check, and the
    reference is not set. *)
Lemma C3_finalize_behind_guardrail_not_flagged :
  truthy (optField guardedFinalizeEvent "finalize_answer") = true
  /\ snd <$> classify guardedFinalizeEvent = Ok false
  /\ hasFinalizeEventOccurredRef <$> onUpdateEvent initialState guardedFinalizeEvent = Ok false.
Proof. repeat split; vm_compute; reflexivity. Qed.

(** C3, amended. For every event whose [finalize_answer] or
    [finalize_knowledge_answer] payload is truthy and in which none of the
    nine stage keys tested before them carries a truthy payload, the
    classification gives an entry and sets the finalize flag, and
    [onUpdateEvent] leaves the reference set, whatever else the event holds
    and whatever the state was. *)
Theorem C3_finalize_sets_the_flag st event :
  noneTruthy keysBeforeFinalize event = true ->
  truthy (optField event "finalize_answer") = true
  \/ truthy (optField event "finalize_knowledge_answer") = true ->
  (exists e, classify event = Ok (Some e, true))
  /\ (exists st', onUpdateEvent st event = Ok st'
                  /\ hasFinalizeEventOccurredRef st' = true).
Proof.
  intros Hnone Hfin.
  destruct (classify_finalize event Hnone Hfin) as [e He].
  split; [eauto|].
  unfold onUpdateEvent. rewrite He. cbn. eexists. split; reflexivity.
Qed.

(** On the initial state, a [finalize_answer] event alone. *)
Lemma C3_finalize_sets_the_flag_witness :
  noneTruthy keysBeforeFinalize finalizeEvent = true
  /\ truthy (optField finalizeEvent "finalize_answer") = true
  /\ (exists e, classify finalizeEvent = Ok (Some e, true))
  /\ (exists st', onUpdateEvent initialState finalizeEvent = Ok st'
                  /\ hasFinalizeEventOccurredRef st' = true).
Proof.
  split; [reflexivity|]. split; [reflexivity|].
  apply (C3_finalize_sets_the_flag initialState finalizeEvent);
    [reflexivity|left; reflexivity].
Defined.

(** C6, as stated, fails: the classification raises on a malformed nested
    field, here a [search_query] that is a text and has no [join]. *)
Lemma C6_malformed_search_query_raises :
  classify malformedQueryEvent = TypeError
  /\ onUpdateEvent initialState malformedQueryEvent = TypeError.
Proof. split; vm_compute; reflexivity. Qed.

(** C6, amended. For every event object in which none of the known stage
    keys carries a truthy payload (absent keys among them), the
    classification returns no entry and no finalize flag, and [onUpdateEvent]
    returns the state it was given. And the classification does not raise on
    an event whose nested fields are missing or of the type the handler
    expects. *)
Theorem C6_unknown_events_ignored_well_formed_events_classified st props :
  (noneTruthy stageKeys (JObject props) = true ->
     classify (JObject props) = Ok (None, false)
     /\ onUpdateEvent st (JObject props) = Ok st)
  /\ (wellFormed (JObject props) = true -> isOk (classify (JObject props)) = true).
Proof.
  split.
  - intros H. apply classify_no_stage in H. split; [exact H|].
    unfold onUpdateEvent. rewrite H. reflexivity.
  - apply classify_wellFormed.
Qed.

(** An event of an unknown stage, received after a finalize. *)
Lemma C6_unknown_events_ignored_well_formed_events_classified_witness :
  Forall (fun k => ownProperty (js k) unknownProps = None) stageKeys
  /\ wellFormed (JObject unknownProps) = true
  /\ classify (JObject unknownProps) = Ok (None, false)
  /\ onUpdateEvent finalizedState (JObject unknownProps) = Ok finalizedState
  /\ isOk (classify (JObject unknownProps)) = true.
Proof.
  assert (Forall (fun k => ownProperty (js k) unknownProps = None) stageKeys) as Habsent
    by (repeat constructor).
  split; [exact Habsent|]. split; [reflexivity|].
  destruct (C6_unknown_events_ignored_well_formed_events_classified
              finalizedState unknownProps) as [Hnone Hwell].
  destruct (Hnone (absent_noneTruthy _ _ Habsent)) as [Hc Hu].
  split; [exact Hc|]. split; [exact Hu|]. apply Hwell. reflexivity.
Defined.

(** ** The archive effect *)

(** C2, as stated, fails: with the reference set, the thread idle and a
    human message last, the effect writes nothing into the archive and still
    clears the reference. *)
Lemma C2_latch_cleared_without_archive :
  hasFinalizeEventOccurredRef finalizedState = true
  /\ historicalActivities (archiveEffect finalizedState [humanMessage "1"] false)
     = historicalActivities finalizedState
  /\ hasFinalizeEventOccurredRef (archiveEffect finalizedState [humanMessage "1"] false) = false.
Proof. repeat split; vm_compute; reflexivity. Qed.

(** C2, amended. The effect clears the reference whenever it runs with the
    reference set, the thread not loading and a message in the thread,
    whether or not it archives; the reference stays set exactly when the
    thread is loading or has no message, and then the effect changes nothing. *)
Theorem C2_latch_cleared_when_idle st msgs isLoading :
  hasFinalizeEventOccurredRef (archiveEffect st msgs isLoading)
  = hasFinalizeEventOccurredRef st && (isLoading || bool_decide (msgs = []))
  /\ (hasFinalizeEventOccurredRef (archiveEffect st msgs isLoading) = true ->
      archiveEffect st msgs isLoading = st).
Proof.
  unfold archiveEffect.
  destruct (hasFinalizeEventOccurredRef st) eqn:Hlatch, isLoading, msgs as [|m msgs];
    cbn [andb orb negb length Nat.ltb Nat.leb];
    rewrite ?Hlatch; split; try reflexivity; intros; reflexivity || discriminate.
Qed.

(** The effect run before any message is in the thread. *)
Lemma C2_latch_cleared_when_idle_witness :
  hasFinalizeEventOccurredRef (archiveEffect finalizedState [] false) = true
  /\ archiveEffect finalizedState [] false = finalizedState.
Proof.
  split; [reflexivity|].
  apply (proj2 (C2_latch_cleared_when_idle finalizedState [] false)). reflexivity.
Defined.

(** C5. With the reference set, the thread idle and an AI message with an
    id last, a first run of the effect stores the live timeline under that id
    and clears the reference; a second run on the same thread returns the
    state unchanged, so the archive is written once. *)
Theorem C5_archive_once st msgs m id :
  hasFinalizeEventOccurredRef st = true ->
  last msgs = Some m -> msg_type m = js "ai" -> msg_id m = Some id -> id <> [] ->
  let st1 := archiveEffect st msgs false in
  archived st1 id = Some (liveTimeline st)
  /\ hasFinalizeEventOccurredRef st1 = false
  /\ archiveEffect st1 msgs false = st1
  /\ historicalActivities (archiveEffect st1 msgs false) = historicalActivities st1.
Proof.
  intros Hlatch Hlast Htype Hid Hne st1.
  assert (st1 = setFinalizeRef false (setHistoricalActivities id (liveTimeline st) st)) as E
    by (apply (archiveEffect_archives st msgs m id); assumption).
  assert (hasFinalizeEventOccurredRef st1 = false) as Hcleared by (rewrite E; reflexivity).
  split; [rewrite E, archived_setFinalizeRef; apply archived_setHistoricalActivities|].
  split; [exact Hcleared|].
  rewrite (archiveEffect_unset st1 msgs false Hcleared). split; reflexivity.
Qed.

(** The effect run twice after the answer [m1] arrived. *)
Lemma C5_archive_once_witness :
  archived archivedState (js "m1") = Some (liveTimeline finalizedState)
  /\ hasFinalizeEventOccurredRef archivedState = false
  /\ archiveEffect archivedState [humanMessage "1"; aiMessage "m1"] false = archivedState
  /\ historicalActivities (archiveEffect archivedState [humanMessage "1"; aiMessage "m1"] false)
     = historicalActivities archivedState.
Proof.
  apply (C5_archive_once finalizedState [humanMessage "1"; aiMessage "m1"]
           (aiMessage "m1") (js "m1"));
    [reflexivity|reflexivity|reflexivity|reflexivity|discriminate].
Defined.

(** C7. A run of the effect that archives stores the snapshot and clears the
    reference, and the live timeline is what it was; no run of the effect
    changes the live timeline, an update event keeps it or appends to it, and
    it is a submission (of a non-blank input) that empties it. *)
Theorem C7_archive_keeps_live_timeline st msgs m id :
  hasFinalizeEventOccurredRef st = true ->
  last msgs = Some m -> msg_type m = js "ai" -> msg_id m = Some id -> id <> [] ->
  let st1 := archiveEffect st msgs false in
  archived st1 id = Some (liveTimeline st)
  /\ hasFinalizeEventOccurredRef st1 = false
  /\ liveTimeline st1 = liveTimeline st
  /\ (forall msgs' isLoading, liveTimeline (archiveEffect st1 msgs' isLoading) = liveTimeline st)
  /\ (forall event st2, onUpdateEvent st1 event = Ok st2 ->
        liveTimeline st2 = liveTimeline st \/ exists e, liveTimeline st2 = liveTimeline st ++ [e])
  /\ (forall msgs' now input effort model, trim input <> [] ->
        liveTimeline (fst (handleSubmit st1 msgs' now input effort model)) = []).
Proof.
  intros Hlatch Hlast Htype Hid Hne st1.
  assert (st1 = setFinalizeRef false (setHistoricalActivities id (liveTimeline st) st)) as E
    by (apply (archiveEffect_archives st msgs m id); assumption).
  assert (liveTimeline st1 = liveTimeline st) as Hlive
    by apply archiveEffect_liveTimeline.
  split; [rewrite E, archived_setFinalizeRef; apply archived_setHistoricalActivities|].
  split; [rewrite E; reflexivity|].
  split; [exact Hlive|].
  split; [intros; rewrite archiveEffect_liveTimeline; exact Hlive|].
  split.
  - intros event st2 H. rewrite <- Hlive. eapply onUpdateEvent_liveTimeline, H.
  - intros msgs' now input effort model Hinput.
    rewrite handleSubmit_dispatch by exact Hinput. cbn [fst].
    rewrite liveTimeline_setFinalizeRef. apply liveTimeline_setProcessedEventsTimeline.
Qed.

(** The answer [m1] archived, then the next question submitted. *)
Lemma C7_archive_keeps_live_timeline_witness :
  archived archivedState (js "m1") = Some (liveTimeline finalizedState)
  /\ hasFinalizeEventOccurredRef archivedState = false
  /\ liveTimeline archivedState = liveTimeline finalizedState
  /\ liveTimeline finalizedState <> []
  /\ liveTimeline (fst (handleSubmit archivedState [] 1700000000000
                          (js "next question") (js "low") (js "model"))) = [].
Proof.
  destruct (C7_archive_keeps_live_timeline finalizedState
              [humanMessage "1"; aiMessage "m1"] (aiMessage "m1") (js "m1"))
    as (H1 & H2 & H3 & _ & _ & H6);
    [reflexivity|reflexivity|reflexivity|reflexivity|discriminate|].
  split; [exact H1|]. split; [exact H2|]. split; [exact H3|].
  split; [discriminate|].
  apply H6. discriminate.
Defined.

(** C8. The array archived under a message id is a copy: from the state
    the archiving run of the effect leaves, whatever happens next to the live
    timeline (entries appended by update events, a reset by a submission, an
    assignment into the live array itself) and to other ids of the archive,
    reading the archive under that id gives the snapshot taken at the
    archive. *)
Theorem C8_archived_copy_is_stable st msgs m id st' :
  reachable st ->
  hasFinalizeEventOccurredRef st = true ->
  last msgs = Some m -> msg_type m = js "ai" -> msg_id m = Some id -> id <> [] ->
  rtc (stepAway id) (archiveEffect st msgs false) st' ->
  archived st' id = Some (liveTimeline st)
  /\ (forall xs, liveTimeline (mutateArray (processedEventsTimeline st') xs st') = xs
                 /\ archived (mutateArray (processedEventsTimeline st') xs st') id
                    = Some (liveTimeline st)).
Proof.
  intros Hreach Hlatch Hlast Htype Hid Hne Hsteps.
  pose proof (wf_archiveEffect st msgs false (wf_reachable st Hreach)) as Hwf1.
  assert (archived st' id = Some (liveTimeline st)) as Hkept.
  { rewrite (archived_stable id _ st' Hwf1 Hsteps).
    rewrite (archiveEffect_archives st msgs m id) by assumption.
    rewrite archived_setFinalizeRef. apply archived_setHistoricalActivities. }
  split; [exact Hkept|]. intros xs.
  split; [apply liveTimeline_mutate_live|].
  rewrite <- Hkept.
  apply (archived_stable id st'); [eapply wf_stepsAway; eassumption|].
  apply rtc_once, away_mutate.
Qed.

(** The answer [m1] archived, one more entry appended, the live array emptied in place. *)
Lemma C8_archived_copy_is_stable_witness :
  archived disturbedState (js "m1") = Some (liveTimeline finalizedState)
  /\ liveTimeline finalizedState <> []
  /\ liveTimeline disturbedState = [].
Proof.
  split; [|split; [discriminate|reflexivity]].
  apply (C8_archived_copy_is_stable finalizedState
           [humanMessage "1"; aiMessage "m1"] (aiMessage "m1") (js "m1") disturbedState);
    [exact reachable_finalizedState|reflexivity|reflexivity|reflexivity|reflexivity
    |discriminate|exact archivedState_disturbed].
Defined.

(** ** Submission *)

(** C4, as stated, fails: [handleSubmit] returns at once on a blank input,
    and the live timeline and the reference keep the values they held. *)
Lemma C4_blank_submission_resets_nothing :
  liveTimeline (fst (handleSubmit finalizedState [] 1700000000000
                       (js "   ") (js "low") (js "model")))
  = liveTimeline finalizedState
  /\ liveTimeline finalizedState <> []
  /\ hasFinalizeEventOccurredRef
       (fst (handleSubmit finalizedState [] 1700000000000
               (js "   ") (js "low") (js "model"))) = true.
Proof. split; [reflexivity|]. split; [discriminate|reflexivity]. Qed.

(** C4, amended. After every call of [handleSubmit] with an input that is
    not blank (something is left of it once trimmed), the live timeline is
    empty and the reference is unset, whatever they held before; a call with
    a blank input returns the state it was given and submits nothing. *)
Theorem C4_submission_resets st msgs now input effort model :
  (trim input <> [] ->
     liveTimeline (fst (handleSubmit st msgs now input effort model)) = []
     /\ hasFinalizeEventOccurredRef (fst (handleSubmit st msgs now input effort model)) = false)
  /\ (trim input = [] -> handleSubmit st msgs now input effort model = (st, None)).
Proof.
  split; [|apply handleSubmit_blank].
  intros Hinput. rewrite handleSubmit_dispatch by exact Hinput. cbn [fst].
  split; [|reflexivity].
  rewrite liveTimeline_setFinalizeRef. apply liveTimeline_setProcessedEventsTimeline.
Qed.

(** A question submitted while the timeline of the last answer is shown. *)
Lemma C4_submission_resets_witness :
  trim (js " why is the sky blue? ") <> []
  /\ liveTimeline finalizedState <> []
  /\ hasFinalizeEventOccurredRef finalizedState = true
  /\ liveTimeline (fst (handleSubmit finalizedState [] 1700000000000
                          (js " why is the sky blue? ") (js "low") (js "model"))) = []
  /\ hasFinalizeEventOccurredRef
       (fst (handleSubmit finalizedState [] 1700000000000
               (js " why is the sky blue? ") (js "low") (js "model"))) = false.
Proof.
  split; [discriminate|]. split; [discriminate|]. split; [reflexivity|].
  apply (proj1 (C4_submission_resets finalizedState [] 1700000000000
                  (js " why is the sky blue? ") (js "low") (js "model"))).
  discriminate.
Defined.

(** C9. A submission of a non-blank input calls [thread.submit] with the
    thread's messages followed by the new human message, the model, and the
    two counters of the effort: 1 and 1 for "low", 3 and 3 for "medium", 5 and
    10 for "high". *)
Theorem C9_effort_parameters st msgs now input model :
  trim input <> [] ->
  snd (handleSubmit st msgs now input (js "low") model)
  = Some {| messages := msgs ++ [submittedMessage now input];
            initial_search_query_count := 1; max_research_loops := 1;
            reasoning_model := model |}
  /\ snd (handleSubmit st msgs now input (js "medium") model)
     = Some {| messages := msgs ++ [submittedMessage now input];
               initial_search_query_count := 3; max_research_loops := 3;
               reasoning_model := model |}
  /\ snd (handleSubmit st msgs now input (js "high") model)
     = Some {| messages := msgs ++ [submittedMessage now input];
               initial_search_query_count := 5; max_research_loops := 10;
               reasoning_model := model |}.
Proof.
  intros Hinput. rewrite !handleSubmit_dispatch by exact Hinput.
  repeat split; reflexivity.
Qed.

(** A first question at high effort. *)
Lemma C9_effort_parameters_witness :
  trim (js "hello") <> []
  /\ (initial_search_query_count <$>
        snd (handleSubmit initialState [] 1700000000000 (js "hello") (js "high") (js "model")))
     = Some 5
  /\ (max_research_loops <$>
        snd (handleSubmit initialState [] 1700000000000 (js "hello") (js "high") (js "model")))
     = Some 10.
Proof.
  split; [discriminate|].
  destruct (C9_effort_parameters initialState [] 1700000000000 (js "hello") (js "model"))
    as (_ & _ & Hhigh); [discriminate|].
  rewrite Hhigh. split; reflexivity.
Defined.

(** C10. For an effort that is none of "low", "medium" and "high", a
    submission of a non-blank input still calls [thread.submit], with both
    counters at 0, the value they are initialised to: the [switch] has no
    default case. *)
Theorem C10_unknown_effort_submits_zero st msgs now input effort model :
  effort <> js "low" -> effort <> js "medium" -> effort <> js "high" ->
  trim input <> [] ->
  snd (handleSubmit st msgs now input effort model)
  = Some {| messages := msgs ++ [submittedMessage now input];
            initial_search_query_count := 0; max_research_loops := 0;
            reasoning_model := model |}.
Proof.
  intros Hlow Hmedium Hhigh Hinput.
  rewrite handleSubmit_dispatch by exact Hinput.
  unfold effortSwitch. rewrite !eqb_neq by assumption. reflexivity.
Qed.

(** A first question at an effort the switch does not list. *)
Lemma C10_unknown_effort_submits_zero_witness :
  snd (handleSubmit initialState [] 1700000000000 (js "hello") (js "extreme") (js "model"))
  = Some {| messages := [submittedMessage 1700000000000 (js "hello")];
            initial_search_query_count := 0; max_research_loops := 0;
            reasoning_model := js "model" |}.
Proof.
  apply (C10_unknown_effort_submits_zero initialState [] 1700000000000
           (js "hello") (js "extreme") (js "model")); discriminate.
Defined.

(** * Further properties of the handlers *)

(** ** What a branch returns *)

Lemma entry_plain t d r : entry t d = Ok r -> plainEntry r.
Proof. unfold entry. intros [= <-]. exists t, d. reflexivity. Qed.

(** Destructs the results a computation binds, down to its last [entry]. *)
Ltac branch_result H :=
  repeat match type of H with
         | entry _ _ = Ok _ => apply entry_plain in H; exact H
         | TypeError = Ok _ => discriminate H
         | (_ ← ?e; _) = Ok _ =>
             let E := fresh "E" in destruct e eqn:E; cbn [mbind Result_bind] in H
         | (match ?e with _ => _ end) = Ok _ => destruct e
         | (if ?b then _ else _) = Ok _ => destruct b
         end.

Lemma input_guardrail_branch_plain g r : input_guardrail_branch g = Ok r -> plainEntry r.
Proof. unfold input_guardrail_branch. intros H. branch_result H. Qed.

Lemma generate_query_branch_plain t p r : generate_query_branch t p = Ok r -> plainEntry r.
Proof.
  unfold generate_query_branch, search_query_text. intros H.
  destruct (nullish (optField p "search_query")).
  - cbn in H. injection H as <-. eexists _, _. reflexivity.
  - destruct (join (optField p "search_query") (js ", ")) as [joined|]; [|discriminate].
    cbn [fmap Result_fmap mbind Result_bind] in H. injection H as <-.
    unfold or. destruct (truthy (JString joined)); eexists _, _; reflexivity.
Qed.

Lemma web_research_branch_plain w r : web_research_branch w = Ok r -> plainEntry r.
Proof. unfold web_research_branch. intros H. branch_result H. Qed.

Lemma classify_query_branch_plain c r : classify_query_branch c = Ok r -> plainEntry r.
Proof. unfold classify_query_branch. intros H. branch_result H. Qed.

Lemma knowledge_search_branch_plain k r : knowledge_search_branch k = Ok r -> plainEntry r.
Proof. unfold knowledge_search_branch. intros H. branch_result H. Qed.

Lemma reflection_branch_plain x r : reflection_branch x = Ok r -> plainEntry r.
Proof. unfold reflection_branch. intros H. branch_result H. Qed.

Lemma knowledge_reflection_branch_plain x r :
  knowledge_reflection_branch x = Ok r -> plainEntry r.
Proof. unfold knowledge_reflection_branch. intros H. branch_result H. Qed.

(** ** The chain as a dispatch on the first truthy stage key *)

Lemma classify_firstStage props :
  classify (JObject props) =
    match firstStage (JObject props) with
    | Some (k, payload) => stageBranch k payload
    | None => Ok (None, false)
    end.
Proof.
  rewrite classify_object. unfold firstStage.
  cbn [map stageKeys List.find snd].
  repeat (destruct (truthy _); [reflexivity|]). reflexivity.
Qed.

(** Rewrites the tests of the chain that were decided into [noneTruthy]. *)
Ltac decide_noneTruthy :=
  unfold noneTruthy, keysBeforeFinalize; cbn [forallb take stageKeys];
  repeat match goal with
         | E : truthy ?x = _ |- context [truthy ?x] => rewrite E
         end;
  cbn [negb andb].

(** The three ways in which a classification returns. *)
Lemma classify_cases event r :
  classify event = Ok r ->
  (noneTruthy stageKeys event = true /\ r = (None, false))
  \/ (noneTruthy stageKeys event = false /\ plainEntry r)
  \/ (noneTruthy stageKeys event = false
      /\ noneTruthy keysBeforeFinalize event = true
      /\ (truthy (optField event "finalize_answer") = true
          \/ truthy (optField event "finalize_knowledge_answer") = true)
      /\ exists t d, r = (Some {| title := t; data := JString d |}, true)).
Proof.
  intros H. destruct event as [| |b|n|s|xs|props];
    try discriminate H;
    try (left; split; [reflexivity|]; injection H as <-; reflexivity).
  rewrite classify_object in H.
  destruct (truthy (optField (JObject props) "input_guardrail")) eqn:E1;
    [right; left; split; [decide_noneTruthy; reflexivity
                         |eauto using input_guardrail_branch_plain]|].
  destruct (truthy (optField (JObject props) "guardrail_block")) eqn:E2;
    [right; left; split; [decide_noneTruthy; reflexivity|eauto using entry_plain]|].
  destruct (truthy (optField (JObject props) "generate_query")) eqn:E3;
    [right; left; split; [decide_noneTruthy; reflexivity
                         |eauto using generate_query_branch_plain]|].
  destruct (truthy (optField (JObject props) "generate_knowledge_query")) eqn:E4;
    [right; left; split; [decide_noneTruthy; reflexivity
                         |eauto using generate_query_branch_plain]|].
  destruct (truthy (optField (JObject props) "web_research")) eqn:E5;
    [right; left; split; [decide_noneTruthy; reflexivity
                         |eauto using web_research_branch_plain]|].
  destruct (truthy (optField (JObject props) "classify_query")) eqn:E6;
    [right; left; split; [decide_noneTruthy; reflexivity
                         |eauto using classify_query_branch_plain]|].
  destruct (truthy (optField (JObject props) "knowledge_search")) eqn:E7;
    [right; left; split; [decide_noneTruthy; reflexivity
                         |eauto using knowledge_search_branch_plain]|].
  destruct (truthy (optField (JObject props) "reflection")) eqn:E8;
    [right; left; split; [decide_noneTruthy; reflexivity
                         |eauto using reflection_branch_plain]|].
  destruct (truthy (optField (JObject props) "knowledge_reflection")) eqn:E9;
    [right; left; split; [decide_noneTruthy; reflexivity
                         |eauto using knowledge_reflection_branch_plain]|].
  destruct (truthy (optField (JObject props) "finalize_answer")) eqn:E10.
  { right; right. injection H as <-.
    split; [decide_noneTruthy; reflexivity|].
    split; [decide_noneTruthy; reflexivity|].
    split; [left; reflexivity|]. eexists _, _. reflexivity. }
  destruct (truthy (optField (JObject props) "finalize_knowledge_answer")) eqn:E11.
  { right; right. injection H as <-.
    split; [decide_noneTruthy; reflexivity|].
    split; [decide_noneTruthy; reflexivity|].
    split; [right; reflexivity|]. eexists _, _. reflexivity. }
  left. injection H as <-. split; [decide_noneTruthy; reflexivity|reflexivity].
Qed.

(** ** Classification, in general *)

Lemma onUpdateEvent_reference st event st' :
  onUpdateEvent st event = Ok st' ->
  hasFinalizeEventOccurredRef st'
  = hasFinalizeEventOccurredRef st || finalizes event.
Proof.
  intros H. apply onUpdateEvent_inv in H as (pe & fin & Hc & ->). cbn zeta.
  assert (fin = finalizes event) as ->.
  { unfold finalizes.
    destruct (classify_cases _ _ Hc) as [[Hn E]|[[Hn (t & d & E)]|(Hn & Hb & Hf & t & d & E)]];
      injection E as -> ->.
    - split_noneTruthy Hn.
      repeat match goal with E : truthy _ = false |- _ => rewrite E; clear E end.
      rewrite andb_false_r. reflexivity.
    - destruct (noneTruthy keysBeforeFinalize event) eqn:Hb; [|reflexivity].
      destruct (truthy (optField event "finalize_answer")) eqn:Hf1;
        [|destruct (truthy (optField event "finalize_knowledge_answer")) eqn:Hf2];
        try reflexivity;
        (destruct (classify_finalize event Hb) as [e He]; [auto|congruence]).
    - rewrite Hb. destruct Hf as [-> | ->]; [reflexivity|]. rewrite orb_true_r. reflexivity. }
  destruct pe, (finalizes event), (hasFinalizeEventOccurredRef st) eqn:Hl;
    cbn; rewrite ?Hl; reflexivity.
Qed.


(** X1. When an update event is handled without raising, the finalize
    reference afterwards is set exactly if it was set before or the event
    carries a truthy finalize payload behind no truthy earlier stage key: no
    other event sets it, and no event clears it. *)
Theorem onUpdateEvent_sets_reference_only_on_finalize st event st' :
  onUpdateEvent st event = Ok st' ->
  hasFinalizeEventOccurredRef st'
  = hasFinalizeEventOccurredRef st || finalizes event.
Proof. apply onUpdateEvent_reference. Qed.

(** A guardrail event leaves a set reference set; a finalize event sets it. *)
Lemma onUpdateEvent_sets_reference_only_on_finalize_witness :
  (hasFinalizeEventOccurredRef <$> onUpdateEvent finalizedState (JObject guardrailProps)) = Ok true
  /\ (hasFinalizeEventOccurredRef <$> onUpdateEvent initialState (JObject guardrailProps)) = Ok false.
Proof.
  destruct (onUpdateEvent finalizedState (JObject guardrailProps)) as [st1|] eqn:E1;
    [|discriminate E1].
  destruct (onUpdateEvent initialState (JObject guardrailProps)) as [st2|] eqn:E2;
    [|discriminate E2].
  cbn [fmap Result_fmap].
  rewrite (onUpdateEvent_sets_reference_only_on_finalize _ _ _ E1).
  rewrite (onUpdateEvent_sets_reference_only_on_finalize _ _ _ E2).
  split; reflexivity.
Defined.

(** X2. When the classification of an event returns, it returns an entry
    exactly if some stage key of the event carries a truthy payload; the data
    of the entry is always a text; and the finalize flag never comes without
    an entry. *)
Theorem classify_entry_iff_stage event pe fin :
  classify event = Ok (pe, fin) ->
  (pe = None <-> noneTruthy stageKeys event = true)
  /\ (forall e, pe = Some e -> exists d, data e = JString d)
  /\ (fin = true -> pe <> None).
Proof.
  intros H.
  destruct (classify_cases _ _ H) as [[Hn E]|[[Hn (t & d & E)]|(Hn & _ & _ & t & d & E)]];
    injection E as -> ->; rewrite Hn.
  - split; [tauto|]. split; [discriminate|discriminate].
  - split; [split; discriminate|]. split; [|discriminate].
    intros e [= <-]. eauto.
  - split; [split; discriminate|]. split; [|discriminate].
    intros e [= <-]. eauto.
Qed.

Lemma classify_entry_iff_stage_witness :
  noneTruthy stageKeys (JObject crowdedGuardrailProps) = false
  /\ exists e d, classify (JObject crowdedGuardrailProps) = Ok (Some e, false)
                 /\ data e = JString d.
Proof.
  split; [reflexivity|].
  destruct (classify (JObject crowdedGuardrailProps)) as [[[e|] fin]|] eqn:E;
    [|discriminate E|discriminate E].
  destruct (classify_entry_iff_stage _ _ _ E) as (_ & Hd & _).
  destruct (Hd e eq_refl) as [d Hdata].
  exists e, d. split; [|exact Hdata].
  vm_compute in E. injection E as <- <-. vm_compute. reflexivity.
Defined.

(** X3. The classification of an event object is decided by its first
    truthy stage key, in the order of the chain, and by the payload under that
    key: two events that agree on these are classified alike, whatever else
    they hold, later stage keys included. *)
Theorem classify_decided_by_first_stage props props' :
  firstStage (JObject props) = firstStage (JObject props') ->
  classify (JObject props) = classify (JObject props').
Proof. intros H. rewrite !classify_firstStage, H. reflexivity. Qed.

Lemma classify_decided_by_first_stage_witness :
  classify (JObject crowdedGuardrailProps) = classify (JObject guardrailProps).
Proof.
  apply (classify_decided_by_first_stage crowdedGuardrailProps guardrailProps).
  reflexivity.
Defined.

(** ** A stream of events *)

Lemma onUpdateEvent_classified st event pe fin :
  classify event = Ok (pe, fin) ->
  exists st', onUpdateEvent st event = Ok st'
    /\ liveTimeline st' = liveTimeline st ++ entriesOf [(pe, fin)]
    /\ hasFinalizeEventOccurredRef st' = hasFinalizeEventOccurredRef st || fin
    /\ historicalActivities st' = historicalActivities st.
Proof.
  intros Hc. unfold onUpdateEvent. rewrite Hc. cbn [mbind Result_bind].
  destruct pe as [e|]; eexists; (split; [reflexivity|]).
  - rewrite liveTimeline_setProcessedEventsTimeline.
    destruct fin, (hasFinalizeEventOccurredRef st) eqn:Hl; cbn; rewrite ?Hl; auto.
  - unfold entriesOf. cbn. rewrite app_nil_r.
    destruct fin, (hasFinalizeEventOccurredRef st) eqn:Hl; cbn; rewrite ?Hl; auto.
Qed.

Lemma mapM_classify_cons event events results :
  mapM classify (event :: events) = Ok results ->
  exists r rs, classify event = Ok r /\ mapM classify events = Ok rs /\ results = r :: rs.
Proof.
  change (mapM classify (event :: events))
    with (r ← classify event; rs ← mapM classify events; mret (r :: rs)).
  destruct (classify event) as [r|]; [|discriminate]. cbn [mbind Result_bind].
  destruct (mapM classify events) as [rs|]; [|discriminate]. cbn.
  intros [= <-]. eauto.
Qed.

Lemma onUpdateEvents_classified events : forall st results,
  mapM classify events = Ok results ->
  exists st', onUpdateEvents st events = Ok st'
    /\ liveTimeline st' = liveTimeline st ++ entriesOf results
    /\ hasFinalizeEventOccurredRef st'
       = hasFinalizeEventOccurredRef st || existsb snd results
    /\ historicalActivities st' = historicalActivities st.
Proof.
  induction events as [|event events IH]; intros st results H.
  - injection H as <-. exists st. cbn. rewrite app_nil_r, orb_false_r. auto.
  - apply mapM_classify_cons in H as ([pe fin] & rs & Hc & Hrs & ->).
    destruct (onUpdateEvent_classified st event pe fin Hc) as (st1 & H1 & Hl1 & Hf1 & Ha1).
    destruct (IH st1 rs Hrs) as (st' & H' & Hl' & Hf' & Ha').
    exists st'. cbn [onUpdateEvents]. rewrite H1. cbn [mbind Result_bind].
    split; [exact H'|]. split; [|split].
    + rewrite Hl', Hl1. unfold entriesOf. cbn [omap]. rewrite <- app_assoc.
      destruct pe; reflexivity.
    + rewrite Hf', Hf1. cbn [existsb snd]. rewrite orb_assoc. reflexivity.
    + congruence.
Qed.

(** X4. A stream of events none of which raises is handled to its end: the
    live timeline is then the timeline before followed by the entries of the
    events, one per classified event and in the order of delivery; the
    reference is set if it was or if some event was a finalize; the archive is
    as before. *)
Theorem onUpdateEvents_appends_in_order st events results :
  mapM classify events = Ok results ->
  exists st', onUpdateEvents st events = Ok st'
    /\ liveTimeline st' = liveTimeline st ++ entriesOf results
    /\ hasFinalizeEventOccurredRef st'
       = hasFinalizeEventOccurredRef st || existsb snd results
    /\ historicalActivities st' = historicalActivities st.
Proof. apply onUpdateEvents_classified. Qed.

Lemma onUpdateEvents_appends_in_order_witness :
  exists results st',
    mapM classify turnEvents = Ok results
    /\ onUpdateEvents finalizedState turnEvents = Ok st'
    /\ map title (liveTimeline st')
       = [js "Finalizing Answer"; js "Generating Search Queries"; js "Finalizing Answer"].
Proof.
  destruct (mapM classify turnEvents) as [results|] eqn:E; [|discriminate E].
  destruct (onUpdateEvents_appends_in_order finalizedState turnEvents results E)
    as (st' & Hrun & Hlive & _).
  exists results, st'. split; [reflexivity|]. split; [exact Hrun|].
  rewrite Hlive. vm_compute in E. injection E as <-. vm_compute. reflexivity.
Defined.

(** ** A whole turn *)

(** X5. A turn from its submission to its archive: after a non-blank
    submission, a stream of events none of which raises and one of which is a
    finalize, and a run of the effect on an idle thread that ends with an AI
    message with an id, the timeline archived under that id is the entries of
    the events of this turn, in order, with nothing of what the live timeline
    or the reference held before the submission; the reference is unset
    again. *)
Theorem turn_archives_its_own_entries
    st msgs now input effort model events results msgs' m id :
  trim input <> [] ->
  mapM classify events = Ok results ->
  existsb snd results = true ->
  last msgs' = Some m -> msg_type m = js "ai" -> msg_id m = Some id -> id <> [] ->
  exists st2,
    onUpdateEvents (fst (handleSubmit st msgs now input effort model)) events = Ok st2
    /\ archived (archiveEffect st2 msgs' false) id = Some (entriesOf results)
    /\ liveTimeline (archiveEffect st2 msgs' false) = entriesOf results
    /\ hasFinalizeEventOccurredRef (archiveEffect st2 msgs' false) = false.
Proof.
  intros Hinput Hresults Hfin Hlast Htype Hid Hne.
  destruct (onUpdateEvents_classified events
              (fst (handleSubmit st msgs now input effort model)) results Hresults)
    as (st2 & Hrun & Hlive & Hlatch & _).
  rewrite handleSubmit_dispatch in Hlive, Hlatch by exact Hinput. cbn [fst] in Hlive, Hlatch.
  rewrite liveTimeline_setFinalizeRef, liveTimeline_setProcessedEventsTimeline in Hlive.
  cbn in Hlatch. rewrite Hfin in Hlatch.
  exists st2. split; [exact Hrun|].
  rewrite (archiveEffect_archives st2 msgs' m id) by assumption.
  rewrite archived_setFinalizeRef, archived_setHistoricalActivities.
  rewrite liveTimeline_setFinalizeRef, liveTimeline_setHistoricalActivities, Hlive.
  auto.
Qed.

Lemma turn_archives_its_own_entries_witness :
  liveTimeline finalizedState <> []
  /\ exists st2,
      onUpdateEvents (fst (handleSubmit finalizedState [] 1700000000000
                             (js "next question") (js "medium") (js "model")))
                     turnEvents = Ok st2
      /\ (map title <$> archived (archiveEffect st2 [humanMessage "2"; aiMessage "m2"] false)
                                 (js "m2"))
         = Some [js "Generating Search Queries"; js "Finalizing Answer"].
Proof.
  split; [discriminate|].
  destruct (mapM classify turnEvents) as [results|] eqn:E; [|discriminate E].
  destruct (turn_archives_its_own_entries finalizedState [] 1700000000000
              (js "next question") (js "medium") (js "model") turnEvents results
              [humanMessage "2"; aiMessage "m2"] (aiMessage "m2") (js "m2"))
    as (st2 & Hrun & Harch & _);
    [discriminate|exact E
    |vm_compute in E; injection E as <-; reflexivity
    |reflexivity|reflexivity|reflexivity|discriminate|].
  exists st2. split; [exact Hrun|]. rewrite Harch.
  vm_compute in E. injection E as <-. vm_compute. reflexivity.
Defined.

(** ** When the archive is written *)

(** X6. While no finalize event arrives nothing is archived: from a state
    with the reference unset, any run of update events without a truthy
    finalize payload, of the effect (on any thread, loading or not) and of
    submissions leaves the archive as it was and the reference unset. *)
Theorem nothing_archived_without_finalize st st' :
  hasFinalizeEventOccurredRef st = false ->
  rtc quietStep st st' ->
  historicalActivities st' = historicalActivities st
  /\ hasFinalizeEventOccurredRef st' = false.
Proof.
  intros Hlatch Hrun. induction Hrun as [st|st st1 st' Hstep _ IH]; [auto|].
  assert (historicalActivities st1 = historicalActivities st
          /\ hasFinalizeEventOccurredRef st1 = false) as [Ha Hl].
  { destruct Hstep as [st event st1 Hf1 Hf2 H|st msgs isLoading|st msgs now input effort model].
    - pose proof (onUpdateEvent_reference _ _ _ H) as Hset.
      unfold finalizes in Hset. rewrite Hlatch, Hf1, Hf2, andb_false_r in Hset.
      apply onUpdateEvent_inv in H as (pe & fin & _ & ->).
      split; [|exact Hset]. destruct pe, fin; reflexivity.
    - rewrite archiveEffect_unset by exact Hlatch. auto.
    - destruct (decide (trim input = [])) as [Hb|Hb].
      + rewrite handleSubmit_blank by exact Hb. auto.
      + rewrite handleSubmit_dispatch by exact Hb. auto. }
  destruct (IH Hl) as [IHa IHl]. split; congruence.
Qed.

Lemma nothing_archived_without_finalize_witness :
  liveTimeline guardedState <> []
  /\ historicalActivities
       (archiveEffect guardedState [humanMessage "1"; aiMessage "m1"] false)
     = historicalActivities initialState
  /\ hasFinalizeEventOccurredRef
       (archiveEffect guardedState [humanMessage "1"; aiMessage "m1"] false) = false.
Proof.
  split; [discriminate|].
  apply (nothing_archived_without_finalize initialState); [reflexivity|].
  apply rtc_l with guardedState.
  - apply (quiet_onUpdateEvent initialState (JObject guardrailProps));
      vm_compute; reflexivity.
  - apply rtc_once, quiet_archiveEffect.
Defined.

Lemma archiveEffect_cases st msgs isLoading :
  (hasFinalizeEventOccurredRef st = true /\ isLoading = false
   /\ exists m id, last msgs = Some m /\ msg_type m = js "ai" /\ msg_id m = Some id
                   /\ id <> []
                   /\ archived (archiveEffect st msgs isLoading) id = Some (liveTimeline st))
  \/ (historicalActivities (archiveEffect st msgs isLoading) = historicalActivities st
      /\ store (archiveEffect st msgs isLoading) = store st).
Proof.
  destruct (hasFinalizeEventOccurredRef st) eqn:Hlatch;
    [|right; rewrite archiveEffect_unset by exact Hlatch; auto].
  destruct isLoading;
    [right; unfold archiveEffect; rewrite Hlatch; auto|].
  destruct (last msgs) as [m|] eqn:Hlast;
    [|right; unfold archiveEffect; rewrite Hlatch, Hlast;
      destruct (_ && _ && _); auto].
  destruct (decide (msg_type m = js "ai")) as [Htype|Htype];
    [|right; unfold archiveEffect; rewrite Hlatch, Hlast, (eqb_neq _ _ Htype);
      destruct (_ && _ && _); auto].
  destruct (msg_id m) as [id|] eqn:Hid;
    [|right; unfold archiveEffect, idValue; rewrite Hlatch, Hlast, Hid, andb_false_r;
      destruct (_ && _ && _); auto].
  destruct (decide (id = [])) as [->|Hne].
  - right. unfold archiveEffect, idValue. rewrite Hlatch, Hlast, Hid, andb_false_r.
    destruct (_ && _ && _); auto.
  - left. split; [reflexivity|]. split; [reflexivity|].
    exists m, id. split; [reflexivity|]. split; [exact Htype|].
    split; [exact Hid|]. split; [exact Hne|].
    rewrite (archiveEffect_archives st msgs m id) by assumption.
    rewrite archived_setFinalizeRef. apply archived_setHistoricalActivities.
Qed.

(** X7. A run of the effect writes the archive only if the reference is
    set, the thread is not loading, and its last message is an AI message
    with a non-empty id; it then stores the live timeline under that id. In
    every other case it leaves the archive and the store of arrays as they
    were. *)
Theorem archiveEffect_writes_only_when_due st msgs isLoading :
  (hasFinalizeEventOccurredRef st = true /\ isLoading = false
   /\ exists m id, last msgs = Some m /\ msg_type m = js "ai" /\ msg_id m = Some id
                   /\ id <> []
                   /\ archived (archiveEffect st msgs isLoading) id = Some (liveTimeline st))
  \/ (historicalActivities (archiveEffect st msgs isLoading) = historicalActivities st
      /\ store (archiveEffect st msgs isLoading) = store st).
Proof. apply archiveEffect_cases. Qed.

(** ** Invariants of the archive *)

Lemma archive_keys_archiveEffect st msgs isLoading :
  (forall id l, historicalActivities st !! id = Some l -> id <> []) ->
  forall id l, historicalActivities (archiveEffect st msgs isLoading) !! id = Some l -> id <> [].
Proof.
  intros Hkeys id l.
  destruct (archiveEffect_cases st msgs isLoading)
    as [(Hlatch & -> & m & id' & Hlast & Htype & Hid & Hne & _)|[-> _]];
    [|apply Hkeys].
  rewrite (archiveEffect_archives st msgs m id') by assumption.
  cbn [historicalActivities setFinalizeRef setHistoricalActivities].
  destruct (decide (id' = id)) as [->|Hneq].
  - intros _. exact Hne.
  - rewrite lookup_insert_ne by exact Hneq. apply Hkeys.
Qed.

Lemma archive_keys_step st st' :
  (forall id l, historicalActivities st !! id = Some l -> id <> []) ->
  step st st' ->
  forall id l, historicalActivities st' !! id = Some l -> id <> [].
Proof.
  intros Hkeys Hstep. destruct Hstep as [st event st' H| | |].
  - apply onUpdateEvent_inv in H as (pe & fin & _ & ->).
    destruct pe, fin; exact Hkeys.
  - apply archive_keys_archiveEffect, Hkeys.
  - destruct (decide (trim input = [])) as [Hb|Hb].
    + rewrite handleSubmit_blank by exact Hb. exact Hkeys.
    + rewrite handleSubmit_dispatch by exact Hb. exact Hkeys.
  - exact Hkeys.
Qed.

(** X8. In every state the component can reach, each key of the archive is
    a non-empty message id and has its timeline in the store: a lookup in the
    archive under a key it holds always finds an array. *)
Theorem archive_entries_resolve st id l :
  reachable st ->
  historicalActivities st !! id = Some l ->
  id <> [] /\ exists xs, archived st id = Some xs.
Proof.
  intros Hreach Hl. split.
  - revert id l Hl. induction Hreach as [|st st' _ IH Hstep].
    + intros id l H. cbn in H. rewrite lookup_empty in H. discriminate.
    + eapply archive_keys_step; eassumption.
  - pose proof (wf_archive st (wf_reachable st Hreach) id l Hl) as Hdom.
    apply elem_of_dom in Hdom as [xs Hxs].
    exists xs. unfold archived. rewrite Hl. exact Hxs.
Qed.

Lemma archive_entries_resolve_witness :
  js "m1" <> [] /\ exists xs, archived archivedState (js "m1") = Some xs.
Proof.
  apply (archive_entries_resolve archivedState (js "m1") 2%nat).
  - eapply reachable_step; [exact reachable_finalizedState|apply step_archiveEffect].
  - reflexivity.
Defined.

Lemma archived_archiveEffect_is_Some st msgs isLoading id :
  wf st -> is_Some (archived st id) ->
  is_Some (archived (archiveEffect st msgs isLoading) id).
Proof.
  intros Hwf Hsome.
  destruct (decide (last msgs ≫= msg_id = Some id)) as [Heq|Hne];
    [|rewrite archived_archiveEffect_ne by assumption; exact Hsome].
  unfold archiveEffect. destruct (_ && _ && _); [|exact Hsome].
  rewrite archived_setFinalizeRef.
  destruct (last msgs) as [m|]; [|exact Hsome]. cbn in Heq.
  destruct (_ && _); [|exact Hsome].
  rewrite Heq. cbn [default]. rewrite archived_setHistoricalActivities. eauto.
Qed.

Lemma archived_step_is_Some st st' id :
  wf st -> step st st' -> is_Some (archived st id) -> is_Some (archived st' id).
Proof.
  intros Hwf Hstep Hsome. destruct Hstep.
  - erewrite archived_onUpdateEvent by eassumption. exact Hsome.
  - apply archived_archiveEffect_is_Some; assumption.
  - rewrite archived_handleSubmit by exact Hwf. exact Hsome.
  - rewrite archived_mutate_live by exact Hwf. exact Hsome.
Qed.

(** X9. The archive only grows: once a timeline is archived under a
    message id, every later state has a timeline under that id, whatever
    events, runs of the effect, submissions and writes to the live array
    follow. *)
Theorem archive_never_loses_an_id st st' id :
  reachable st -> rtc step st st' ->
  is_Some (archived st id) -> is_Some (archived st' id).
Proof.
  intros Hreach Hrun. apply wf_reachable in Hreach.
  induction Hrun as [st|st st1 st' Hstep _ IH]; [auto|].
  intros Hsome. apply IH; [eapply wf_step; eassumption|].
  eapply archived_step_is_Some; eassumption.
Qed.

Lemma archive_never_loses_an_id_witness :
  is_Some (archived archivedState (js "m1"))
  /\ is_Some (archived disturbedState (js "m1")).
Proof.
  assert (is_Some (archived archivedState (js "m1"))) as Hsome by (eexists; reflexivity).
  split; [exact Hsome|].
  apply (archive_never_loses_an_id archivedState disturbedState (js "m1")).
  - eapply reachable_step; [exact reachable_finalizedState|apply step_archiveEffect].
  - eapply rtc_subrel; [|exact archivedState_disturbed].
    intros x y. apply stepAway_step.
  - exact Hsome.
Defined.

(** ** The store of arrays *)

Lemma store_setProcessedEventsTimeline ys st l xs :
  store st !! l = Some xs -> store (setProcessedEventsTimeline ys st) !! l = Some xs.
Proof.
  intros H. cbn [store setProcessedEventsTimeline].
  rewrite lookup_insert_ne; [exact H|].
  apply allocated_not_fresh, elem_of_dom. eauto.
Qed.

Lemma store_setHistoricalActivities id ys st l xs :
  store st !! l = Some xs -> store (setHistoricalActivities id ys st) !! l = Some xs.
Proof.
  intros H. cbn [store setHistoricalActivities].
  rewrite lookup_insert_ne; [exact H|].
  apply allocated_not_fresh, elem_of_dom. eauto.
Qed.

Lemma store_onUpdateEvent st event st' l xs :
  store st !! l = Some xs -> onUpdateEvent st event = Ok st' -> store st' !! l = Some xs.
Proof.
  intros Hl H. apply onUpdateEvent_inv in H as (pe & fin & _ & ->). cbn zeta.
  destruct pe, fin; auto using store_setProcessedEventsTimeline.
Qed.

Lemma store_archiveEffect st msgs isLoading l xs :
  store st !! l = Some xs -> store (archiveEffect st msgs isLoading) !! l = Some xs.
Proof.
  intros Hl. unfold archiveEffect. destruct (_ && _ && _); [|exact Hl].
  cbn [store setFinalizeRef]. destruct (last msgs); [|exact Hl].
  destruct (_ && _); auto using store_setHistoricalActivities.
Qed.

Lemma store_handleSubmit st msgs now input effort model l xs :
  store st !! l = Some xs ->
  store (fst (handleSubmit st msgs now input effort model)) !! l = Some xs.
Proof.
  intros Hl. destruct (decide (trim input = [])) as [Hb|Hb].
  - rewrite handleSubmit_blank by exact Hb. exact Hl.
  - rewrite handleSubmit_dispatch by exact Hb. cbn [fst store setFinalizeRef].
    apply store_setProcessedEventsTimeline, Hl.
Qed.

(** X10. The handlers never write into an array that exists: whatever
    array the store holds at a location before a call of [onUpdateEvent], of
    the effect or of [handleSubmit], it holds the same array there after the
    call. Appending an entry, archiving and resetting all build new arrays. *)
Theorem handlers_keep_existing_arrays st l xs :
  store st !! l = Some xs ->
  (forall event st', onUpdateEvent st event = Ok st' -> store st' !! l = Some xs)
  /\ (forall msgs isLoading, store (archiveEffect st msgs isLoading) !! l = Some xs)
  /\ (forall msgs now input effort model,
        store (fst (handleSubmit st msgs now input effort model)) !! l = Some xs).
Proof.
  intros Hl. split; [|split]; intros.
  - eapply store_onUpdateEvent; eassumption.
  - apply store_archiveEffect, Hl.
  - apply store_handleSubmit, Hl.
Qed.

Lemma handlers_keep_existing_arrays_witness :
  store finalizedState !! processedEventsTimeline finalizedState
  = Some (liveTimeline finalizedState)
  /\ store (fst (handleSubmit finalizedState [] 1700000000000
                   (js "next question") (js "low") (js "model")))
       !! processedEventsTimeline finalizedState
     = Some (liveTimeline finalizedState)
  /\ liveTimeline (fst (handleSubmit finalizedState [] 1700000000000
                          (js "next question") (js "low") (js "model"))) = [].
Proof.
  split; [reflexivity|]. split; [|reflexivity].
  apply (handlers_keep_existing_arrays finalizedState
           (processedEventsTimeline finalizedState) (liveTimeline finalizedState)).
  reflexivity.
Defined.

(** ** Blank inputs *)

Lemma trimStart_nil s : trimStart s = [] <-> forallb isWhiteSpace s = true.
Proof.
  induction s as [|c s IH]; [split; reflexivity|].
  cbn [trimStart forallb]. destruct (isWhiteSpace c); cbn [andb].
  - exact IH.
  - split; discriminate.
Qed.

Lemma trimStart_whitespace s :
  forallb isWhiteSpace (trimStart s) = true -> trimStart s = [].
Proof.
  induction s as [|c s IH]; [reflexivity|].
  cbn [trimStart]. destruct (isWhiteSpace c) eqn:Hc; [exact IH|].
  cbn [forallb]. rewrite Hc. discriminate.
Qed.

Lemma forallb_rev {A} (f : A -> bool) l : forallb f (rev l) = forallb f l.
Proof.
  induction l as [|x l IH]; [reflexivity|].
  cbn [rev forallb]. rewrite forallb_app, IH. cbn [forallb].
  rewrite andb_true_r. apply andb_comm.
Qed.

Lemma trim_nil s : trim s = [] <-> forallb isWhiteSpace s = true.
Proof.
  unfold trim, trimEnd. rewrite <- trimStart_nil. split.
  - intros H. apply (f_equal (@rev N)) in H. rewrite rev_involutive in H. cbn in H.
    apply trimStart_nil in H. rewrite forallb_rev in H.
    apply trimStart_whitespace, H.
  - intros ->. reflexivity.
Qed.

(** X11. [handleSubmit] drops a submission exactly when the input consists
    of white space and line terminators only (the empty input among them): it
    then returns the state it was given and calls nothing. Any other input is
    submitted, and the message sent carries the input as it was typed, not its
    trimmed form, after the messages of the thread. *)
Theorem handleSubmit_drops_exactly_blank_inputs st msgs now input effort model :
  (forallb isWhiteSpace input = true ->
     handleSubmit st msgs now input effort model = (st, None))
  /\ (forallb isWhiteSpace input = false ->
        exists payload,
          snd (handleSubmit st msgs now input effort model) = Some payload
          /\ messages payload
             = msgs ++ [ {| msg_type := js "human"; msg_id := Some (numberToString now);
                            msg_content := JString input |} ]).
Proof.
  split; intros H.
  - apply handleSubmit_blank, trim_nil, H.
  - rewrite handleSubmit_dispatch.
    + eexists. split; reflexivity.
    + intros Hb. apply trim_nil in Hb. congruence.
Qed.

Lemma handleSubmit_drops_exactly_blank_inputs_witness :
  handleSubmit finalizedState [] 1700000000000
    [0x20; 0x09; 0x0A; 0xA0; 0x3000; 0xFEFF]%N (js "low") (js "model")
  = (finalizedState, None)
  /\ exists payload,
       snd (handleSubmit finalizedState [] 1700000000000 (js " hi ") (js "low") (js "model"))
       = Some payload
       /\ messages payload
          = [ {| msg_type := js "human"; msg_id := Some (js "1700000000000");
                 msg_content := JString (js " hi ") |} ].
Proof.
  split.
  - apply (proj1 (handleSubmit_drops_exactly_blank_inputs finalizedState [] 1700000000000
                    [0x20; 0x09; 0x0A; 0xA0; 0x3000; 0xFEFF]%N (js "low") (js "model"))).
    reflexivity.
  - apply (proj2 (handleSubmit_drops_exactly_blank_inputs finalizedState [] 1700000000000
                    (js " hi ") (js "low") (js "model"))).
    reflexivity.
Defined.

(** ** When [join] and [ToString] raise *)

Lemma isOk_joinWith sep xs :
  isOk (joinWith toString sep xs) = forallb printableElement xs.
Proof.
  induction xs as [|x xs IH]; [reflexivity|].
  assert (isOk (elemToString toString x) = printableElement x) as Hx
    by (unfold elemToString, printableElement; destruct (nullish x); reflexivity).
  cbn [forallb]. rewrite <- IH, <- Hx.
  destruct xs as [|y ys]; [cbn [joinWith isOk]; rewrite andb_true_r; reflexivity|].
  change (joinWith toString sep (x :: y :: ys))
    with (s ← elemToString toString x; r ← joinWith toString sep (y :: ys); Ok (s ++ sep ++ r)).
  destruct (elemToString toString x); [|reflexivity]. cbn [mbind Result_bind isOk andb].
  destruct (joinWith toString sep (y :: ys)); reflexivity.
Qed.

Lemma isOk_generate_query_branch t payload :
  isOk (generate_query_branch t payload)
  = searchQueryAccepted (optField payload "search_query").
Proof.
  unfold generate_query_branch, search_query_text, searchQueryAccepted.
  destruct (optField payload "search_query") as [| |b|n|s|xs|ps]; try reflexivity.
  cbn [nullish join]. rewrite <- (isOk_joinWith (js ", ") xs).
  destruct (joinWith toString (js ", ") xs); reflexivity.
Qed.

(** X12. An event classified by its [generate_query] key raises exactly
    when [search_query] is present and is not an array of printable elements.
    A missing or [null] list gives an entry; a text, a number or a boolean
    raises, the falsy ones ([""], [0], [false]) included, since the optional
    chain stops at [null] and [undefined] only. *)
Theorem generate_query_raises_iff_search_query_malformed props :
  noneTruthy (take 2 stageKeys) (JObject props) = true ->
  truthy (optField (JObject props) "generate_query") = true ->
  isOk (classify (JObject props))
  = searchQueryAccepted (optField (optField (JObject props) "generate_query") "search_query").
Proof.
  intros H Hg. split_noneTruthy H.
  rewrite classify_object.
  repeat match goal with E : truthy _ = false |- _ => rewrite E; clear E end.
  rewrite Hg. apply isOk_generate_query_branch.
Qed.

Lemma generate_query_raises_iff_search_query_malformed_witness :
  classify (JObject emptyQueryProps) = TypeError.
Proof.
  pose proof (generate_query_raises_iff_search_query_malformed emptyQueryProps
                eq_refl eq_refl) as H.
  destruct (classify (JObject emptyQueryProps)); [discriminate H|reflexivity].
Defined.

Lemma numberToString_nonempty n : numberToString n <> [].
Proof.
  unfold numberToString.
  assert (forall d, NilEmpty.string_of_uint d = EmptyString -> d = Decimal.Nil) as Hu
    by (intros d; destruct d; cbn; congruence).
  assert (forall d, NilZero.string_of_uint d <> EmptyString) as Hz.
  { intros d. unfold NilZero.string_of_uint.
    destruct d; try discriminate; intros H; apply Hu in H; discriminate. }
  unfold NilZero.string_of_int.
  destruct (Z.to_int n) as [d|d].
  - specialize (Hz d). destruct (NilZero.string_of_uint d); [congruence|discriminate].
  - discriminate.
Qed.

(** A truthy value that is not an array never prints as the empty text. *)
Lemma toString_truthy_nonempty v t :
  truthy v = true -> isArray v = false -> toString v = Ok t -> t <> [].
Proof.
  destruct v as [| |b|n|s|xs|ps]; cbn [truthy isArray toString]; try discriminate.
  - intros -> _ [= <-]. discriminate.
  - intros _ _ [= <-]. apply numberToString_nonempty.
  - intros H _ [= <-]. apply truthy_string in H. exact H.
  - intros _ _. destruct (ownProperty _ ps); [discriminate|]. intros [= <-]. discriminate.
Qed.

Lemma knowledge_reflection_branch_text r :
  truthy r = true ->
  knowledge_reflection_branch r =
    let q := or (optField r "follow_up_queries") (JArray []) in
    queries ← (if isArray q then join q (js ", ") else toString q);
    gap ← toString (or (optField r "knowledge_gap") (JString (js "No gap identified")));
    entry (js "Knowledge Reflection")
          (knowledgeReflectionText (or (optField r "is_sufficient") (JBool false)) gap queries).
Proof.
  intros Hr. unfold knowledge_reflection_branch, knowledgeReflectionText.
  rewrite !(field_truthy _ _ Hr). cbn [mbind Result_bind]. cbv zeta.
  set (q := or (optField r "follow_up_queries") (JArray [])).
  assert (truthy q = true) as Hq
    by (unfold q, or; destruct (truthy (optField r "follow_up_queries")) eqn:E; auto).
  destruct (isArray q) eqn:Ha.
  - destruct (join q (js ", ")) as [t|]; [|reflexivity].
    cbn [fmap Result_fmap mbind Result_bind toString].
    destruct (toString _); reflexivity.
  - assert (nullish q = false) as -> by (destruct q; try discriminate; reflexivity).
    destruct (toString q) as [t|] eqn:Ht; [|reflexivity].
    cbn [fmap Result_fmap mbind Result_bind].
    pose proof (toString_truthy_nonempty q t Hq Ha Ht) as Hne.
    apply truthy_string in Hne.
    replace (or (JString t) (JString (js "No follow-up queries"))) with (JString t)
      by (unfold or; rewrite Hne; reflexivity).
    destruct (toString (or (optField r "knowledge_gap") _)); reflexivity.
Qed.

(** X13. The [knowledge_reflection] branch never prints its fallback "No
    follow-up queries": the text after "Follow-up Queries: " is the join of
    the queries when they are an array and the string form of the value
    otherwise, and when the field is missing or falsy it is the empty text. *)
Theorem knowledge_reflection_never_prints_fallback r :
  truthy r = true ->
  knowledge_reflection_branch r
  = (let q := or (optField r "follow_up_queries") (JArray []) in
     queries ← (if isArray q then join q (js ", ") else toString q);
     gap ← toString (or (optField r "knowledge_gap") (JString (js "No gap identified")));
     entry (js "Knowledge Reflection")
           (knowledgeReflectionText (or (optField r "is_sufficient") (JBool false)) gap queries))
  /\ (truthy (optField r "follow_up_queries") = false ->
      knowledge_reflection_branch r
      = (gap ← toString (or (optField r "knowledge_gap") (JString (js "No gap identified")));
         entry (js "Knowledge Reflection")
               (knowledgeReflectionText (or (optField r "is_sufficient") (JBool false)) gap []))).
Proof.
  intros Hr. split; [apply knowledge_reflection_branch_text, Hr|].
  intros Hf. rewrite knowledge_reflection_branch_text by exact Hr.
  unfold or at 1. rewrite Hf. reflexivity.
Qed.

Lemma knowledge_reflection_never_prints_fallback_witness :
  knowledge_reflection_branch bareKnowledgeReflection
  = entry (js "Knowledge Reflection")
      (js "Analysing Knowledge Search Results: " ++ newline
         ++ checkMark ++ js " Sufficient. " ++ newline
         ++ js "Reason: No gap identified. " ++ newline
         ++ js "Follow-up Queries: ").
Proof.
  rewrite (proj2 (knowledge_reflection_never_prints_fallback bareKnowledgeReflection eq_refl))
    by reflexivity.
  reflexivity.
Defined.

(** ** The labels of the web research *)

Lemma existsb_sameValueZero_strings x acc :
  isString x = true -> forallb isString acc = true ->
  existsb (sameValueZero x) acc = true <-> x ∈ acc.
Proof.
  intros Hx. destruct x as [| | | |a| |]; try discriminate.
  induction acc as [|y acc IH]; cbn [existsb forallb].
  - intros _. split; [discriminate|]. intros H. apply elem_of_nil in H. contradiction.
  - rewrite andb_true_iff. intros [Hy Hacc]. destruct y as [| | | |b| |]; try discriminate.
    rewrite orb_true_iff, elem_of_cons, (IH Hacc). cbn [sameValueZero]. unfold eqb.
    rewrite bool_decide_eq_true. split; (intros [H|H]; [left; congruence|right; exact H]).
Qed.

Lemma fold_setAdd_strings xs : forall acc,
  forallb isString xs = true -> forallb isString acc = true -> NoDup acc ->
  NoDup (fold_left setAdd xs acc)
  /\ forall x, x ∈ fold_left setAdd xs acc <-> x ∈ acc \/ x ∈ xs.
Proof.
  induction xs as [|a xs IH]; intros acc Hxs Hacc Hnd.
  - split; [exact Hnd|]. intros x. rewrite elem_of_nil. tauto.
  - cbn [forallb] in Hxs. apply andb_true_iff in Hxs as [Ha Hxs].
    cbn [fold_left]. unfold setAdd.
    pose proof (existsb_sameValueZero_strings a acc Ha Hacc) as Hin.
    destruct (existsb (sameValueZero a) acc).
    + destruct (IH acc Hxs Hacc Hnd) as [IH1 IH2]. split; [exact IH1|].
      intros x. rewrite IH2, elem_of_cons.
      assert (a ∈ acc) by (apply Hin; reflexivity).
      split; [tauto|]. intros [H'|[->|H']]; auto.
    + assert (a ∉ acc) as Hnot by (intros H; apply Hin in H; discriminate).
      destruct (IH (acc ++ [a]) Hxs) as [IH1 IH2].
      * rewrite forallb_app, Hacc. cbn [forallb]. rewrite Ha. reflexivity.
      * apply NoDup_app. split; [exact Hnd|]. split; [|apply NoDup_singleton].
        intros x Hx Hx'. apply list_elem_of_singleton in Hx'. subst. contradiction.
      * split; [exact IH1|]. intros x.
        rewrite IH2, elem_of_app, list_elem_of_singleton, elem_of_cons. tauto.
Qed.

Lemma newSet_strings xs :
  forallb isString xs = true ->
  NoDup (newSet xs) /\ forall x, x ∈ newSet xs <-> x ∈ xs.
Proof.
  intros Hxs.
  destruct (fold_setAdd_strings xs [] Hxs eq_refl (NoDup_nil_2 (A:=JSValue))) as [H1 H2].
  split; [exact H1|]. intros x. unfold newSet. rewrite H2, elem_of_nil. tauto.
Qed.

Lemma joinWith_first_nonempty sep s rest r :
  s <> [] -> joinWith toString sep (JString s :: rest) = Ok r -> r <> [].
Proof.
  intros Hs. destruct rest as [|y ys].
  - cbn. intros [= <-]. exact Hs.
  - change (joinWith toString sep (JString s :: y :: ys))
      with (r' ← joinWith toString sep (y :: ys); Ok (s ++ sep ++ r')).
    destruct (joinWith toString sep (y :: ys)); [|discriminate].
    cbn. intros [= <-]. destruct s; [contradiction|discriminate].
Qed.

Lemma exampleLabels_spec xs :
  forallb isSource xs = true ->
  forallb isString (exampleLabels xs) = true
  /\ NoDup (exampleLabels xs)
  /\ (length (exampleLabels xs) <= 3)%nat
  /\ (forall l, l ∈ exampleLabels xs ->
        exists s src, l = JString s /\ s <> [] /\ src ∈ xs
                      /\ optField src "label" = JString s)
  /\ ((forall src, src ∈ xs -> truthy (optField src "label") = false) ->
      exampleLabels xs = []).
Proof.
  intros Hxs. unfold exampleLabels.
  destruct (mapLabel_sources xs Hxs) as [_ Hlabels].
  set (labels := map (fun s => optField s "label") xs) in *.
  pose proof (filter_truthy_strings labels Hlabels) as Hfiltered.
  destruct (newSet_strings _ Hfiltered) as [Hnd Hmem].
  pose proof (fold_setAdd_forallb isString (List.filter truthy labels) [] eq_refl Hfiltered)
    as Hset.
  change (fold_left setAdd (List.filter truthy labels) []) with
    (newSet (List.filter truthy labels)) in Hset.
  split; [apply forallb_take, Hset|].
  split; [eapply sublist_NoDup; [exact Hnd|apply sublist_take]|].
  split; [rewrite length_take; lia|].
  split.
  - intros l Hl. apply subseteq_take, Hmem, list_elem_of_In, filter_In in Hl as [Hin Ht].
    apply in_map_iff in Hin as (src & Hsrc & Hin). apply list_elem_of_In in Hin.
    destruct l as [| | | |s| |];
      try (exfalso;
           assert (In (optField src "label") labels) as Hl
             by (apply in_map_iff; exists src; split;
                 [reflexivity|apply list_elem_of_In; exact Hin]);
           rewrite forallb_forall in Hlabels; specialize (Hlabels _ Hl);
           rewrite Hsrc in Hlabels; cbn in Hlabels, Ht; congruence).
    exists s, src. split; [reflexivity|]. split; [apply truthy_string, Ht|]. auto.
  - intros Hnone.
    assert (List.filter truthy labels = []) as ->; [|reflexivity].
    destruct (List.filter truthy labels) as [|l ls] eqn:E; [reflexivity|].
    assert (In l (List.filter truthy labels)) as Hl by (rewrite E; left; reflexivity).
    apply filter_In in Hl as [Hin Ht]. apply in_map_iff in Hin as (src & <- & Hin).
    apply list_elem_of_In in Hin. rewrite (Hnone src Hin) in Ht. discriminate.
Qed.

Lemma web_research_branch_text w xs :
  truthy w = true ->
  optField w "sources_gathered" = JArray xs ->
  forallb isSource xs = true ->
  exists joined,
    join (JArray (exampleLabels xs)) (js ", ") = Ok joined
    /\ web_research_branch w
       = entry (js "Web Research")
           (js "Gathered " ++ numberToString (Z.of_nat (length xs))
              ++ js " sources. Related to: "
              ++ match exampleLabels xs with [] => js "N/A" | _ => joined end
              ++ js ".").
Proof.
  intros Hw Hsrc Hxs.
  destruct (exampleLabels_spec xs Hxs) as (Hstr & _ & _ & Hmem & _).
  pose proof (joinWith_strings (js ", ") _ Hstr) as Hok.
  destruct (joinWith toString (js ", ") (exampleLabels xs)) as [joined|] eqn:Hj;
    [|discriminate].
  exists joined. split; [exact Hj|].
  unfold web_research_branch. rewrite (field_truthy _ _ Hw), Hsrc.
  cbn [mbind Result_bind]. cbv zeta.
  change (or (JArray xs) (JArray [])) with (JArray xs). cbn [lengthOf].
  destruct (mapLabel_sources xs Hxs) as [-> _]. cbn [mbind Result_bind join].
  fold (exampleLabels xs). rewrite Hj. cbn [mbind Result_bind toString].
  destruct (exampleLabels xs) as [|l ls] eqn:E.
  - cbn in Hj. injection Hj as <-. reflexivity.
  - destruct (Hmem l) as (s & _ & -> & Hs & _); [left|].
    pose proof (joinWith_first_nonempty _ _ _ _ Hs Hj) as Hne.
    apply truthy_string in Hne. unfold or. rewrite Hne. reflexivity.
Qed.

(** X14. The labels the [web_research] entry shows. For gathered sources
    that are objects with a text label or none, the entry counts every
    source, and lists at most three labels, no label twice, each the non-empty
    label of a gathered source; it prints "N/A" when no source has a
    non-empty label (no source at all among the cases). *)
Theorem web_research_shows_distinct_labels w xs :
  truthy w = true ->
  optField w "sources_gathered" = JArray xs ->
  forallb isSource xs = true ->
  NoDup (exampleLabels xs)
  /\ (length (exampleLabels xs) <= 3)%nat
  /\ (forall l, l ∈ exampleLabels xs ->
        exists s src, l = JString s /\ s <> [] /\ src ∈ xs
                      /\ optField src "label" = JString s)
  /\ ((forall src, src ∈ xs -> truthy (optField src "label") = false) ->
      exampleLabels xs = [])
  /\ exists joined,
       join (JArray (exampleLabels xs)) (js ", ") = Ok joined
       /\ web_research_branch w
          = entry (js "Web Research")
              (js "Gathered " ++ numberToString (Z.of_nat (length xs))
                 ++ js " sources. Related to: "
                 ++ match exampleLabels xs with [] => js "N/A" | _ => joined end
                 ++ js ".").
Proof.
  intros Hw Hsrc Hxs.
  destruct (exampleLabels_spec xs Hxs) as (_ & H1 & H2 & H3 & H4).
  repeat (split; [assumption|]).
  apply web_research_branch_text; assumption.
Qed.

Lemma web_research_shows_distinct_labels_witness :
  exampleLabels sampleSources = [text "A"; text "B"; text "C"]
  /\ web_research_branch sampleWebResearch
     = entry (js "Web Research") (js "Gathered 7 sources. Related to: A, B, C.").
Proof.
  split; [reflexivity|].
  destruct (web_research_shows_distinct_labels sampleWebResearch sampleSources
              eq_refl eq_refl eq_refl) as (_ & _ & _ & _ & joined & Hj & ->).
  vm_compute in Hj. injection Hj as <-. reflexivity.
Defined.

(** ** The summary of a safe input *)

(** X15. For an input that passed the guardrail check (a truthy
    [is_safe_input]; the original input a text, or missing), the entry is
    titled "Input Security Check" and its text is at most 107 code units long
    however long the input is: an input of at most 50 code units is quoted
    whole, a longer one is cut to its first 50 code units followed by "...". *)
Theorem safe_input_summary_is_bounded g :
  truthy (optField g "is_safe_input") = true ->
  absentOr isString (optField g "original_input") = true ->
  exists s d,
    or (optField g "original_input") (JString []) = JString s
    /\ input_guardrail_branch g
       = Ok (Some {| title := shield ++ js " Input Security Check"; data := JString d |}, false)
    /\ (length d <= 107)%nat
    /\ ((length s <= 50)%nat ->
        d = js "Input validated successfully. Safe to proceed with: " ++ quote ++ s ++ quote)
    /\ ((50 < length s)%nat ->
        d = js "Input validated successfully. Safe to proceed with: " ++ quote
              ++ take 50 s ++ js "..." ++ quote).
Proof.
  intros Hsafe Hinput.
  destruct (or_string _ [] Hinput) as [s Hs].
  unfold input_guardrail_branch. rewrite Hsafe, Hs. unfold entry, substring0.
  exists s. eexists. split; [reflexivity|]. split; [reflexivity|].
  split; [|split].
  - rewrite !length_app, length_take.
    change (length (js "Input validated successfully. Safe to proceed with: ")) with 52%nat.
    change (length quote) with 1%nat.
    destruct (50 <? length s)%nat;
      [change (length (js "...")) with 3%nat|change (length (@nil N)) with 0%nat]; lia.
  - intros Hle. rewrite take_ge by exact Hle.
    apply Nat.ltb_ge in Hle. rewrite Hle. reflexivity.
  - intros Hlt. apply Nat.ltb_lt in Hlt. rewrite Hlt. reflexivity.
Qed.

Lemma safe_input_summary_is_bounded_witness :
  exists d,
    input_guardrail_branch longSafeInput
    = Ok (Some {| title := shield ++ js " Input Security Check"; data := JString d |}, false)
    /\ length d = 107%nat.
Proof.
  destruct (safe_input_summary_is_bounded longSafeInput eq_refl eq_refl)
    as (s & d & Hs & Hbranch & _ & _ & Hlong).
  exists d. split; [exact Hbranch|].
  vm_compute in Hs. injection Hs as <-.
  rewrite Hlong by (apply Nat.ltb_lt; reflexivity). reflexivity.
Defined.

(** ** Branches without a failing step *)

(** X16. An event whose first truthy stage key is [guardrail_block],
    [classify_query], [finalize_answer] or [finalize_knowledge_answer] is
    classified without raising whatever the payload under that key is, and so
    is an event object without a truthy stage key: these branches read their
    payload through optional chains and defaults only, or not at all. *)
Theorem fixed_text_branches_never_raise props :
  match firstStage (JObject props) with
  | Some (k, _) =>
      k = "guardrail_block"%string \/ k = "classify_query"%string
      \/ k = "finalize_answer"%string \/ k = "finalize_knowledge_answer"%string
  | None => True
  end ->
  isOk (classify (JObject props)) = true.
Proof.
  rewrite classify_firstStage.
  destruct (firstStage (JObject props)) as [[k payload]|]; [|reflexivity].
  intros [-> | [-> | [-> | ->]]]; reflexivity.
Qed.

Lemma fixed_text_branches_never_raise_witness :
  isOk (classify (JObject [prop "classify_query" (JArray [JNull; JObject [prop "toString" JNull]])]))
  = true.
Proof.
  apply (fixed_text_branches_never_raise
           [prop "classify_query" (JArray [JNull; JObject [prop "toString" JNull]])]).
  right. left. reflexivity.
Defined.

(** ** Runs of the effect, again *)

(** X17. Running the effect twice on the same thread and loading flag is
    the same as running it once, in every state and for every thread, not only
    when it archives: a run either leaves the state alone or leaves the
    reference unset, and with the reference unset the effect does nothing. *)
Theorem archiveEffect_idempotent st msgs isLoading :
  archiveEffect (archiveEffect st msgs isLoading) msgs isLoading
  = archiveEffect st msgs isLoading.
Proof.
  destruct (hasFinalizeEventOccurredRef st && negb isLoading && (0 <? length msgs)%nat)
    eqn:Hcond.
  - apply archiveEffect_unset. unfold archiveEffect. rewrite Hcond. reflexivity.
  - unfold archiveEffect at 2. rewrite Hcond.
    unfold archiveEffect. rewrite Hcond. reflexivity.
Qed.
